(** * Payment-intent lifecycle of the UPI deep-link backend

    A shallow embedding of [src/controllers/paymentController.js]
    (createPayment, checkPaymentStatus, verifyPayment and their helpers)
    together with the parts of the Node.js runtime these handlers call:
    HMAC-SHA256, base64, the two URL encodings, JSON.stringify and the
    ECMAScript number conversions; and of the handlers of
    [src/controllers/orderController.js] that work on one order
    (getOrderById, updateOrderStatus, deleteOrder) with the card fields of
    createOrder.

    Conventions.
    - A JavaScript string is a Rocq [string] holding its UTF-8 bytes (what
      [Buffer.from(s)] yields); strings with lone surrogates are outside
      the model.
    - A JavaScript number is a binary64 [float]; integers the code keeps
      exact (epoch times) are [Z].
    - A point in time ([Date]) is its number of milliseconds since the
      epoch, a [Z].
    - [Date.now()] and [Math.random()] are inputs of a call ([Oracle]).
    - The two database collections are finite maps; a handler is a function
      from the state before the call to the HTTP response, the state after
      the call and the list of writes it issued.
    - [Order.findById] casts the id it is given to the key of a document
      and throws when it cannot ([order_cast]). Other failures of the
      database (a lost connection) are outside the model. *)

From Stdlib Require Import ZArith QArith Qround Floats String Ascii List Bool Lia.
From stdpp Require Import gmap strings.

#[local] Set Warnings "-register-all".

Local Open Scope string_scope.
Local Open Scope list_scope.
Local Open Scope Z_scope.

(* ===================================================================== *)
(** ** Bytes *)
(* ===================================================================== *)

Module Bytes.

Definition byte_of_ascii (c : ascii) : Z := Z.of_N (N_of_ascii c).
Definition ascii_of_byte (b : Z) : ascii := ascii_of_N (Z.to_N (b mod 256)).

Definition of_string (s : string) : list Z :=
  map byte_of_ascii (list_ascii_of_string s).
Definition to_string (l : list Z) : string :=
  string_of_list_ascii (map ascii_of_byte l).

Definition hex_digit (upper : bool) (d : Z) : ascii :=
  if d <? 10 then ascii_of_byte (48 + d)
  else ascii_of_byte ((if upper then 55 else 87) + d).

(** Two hexadecimal digits of a byte, high nibble first. *)
Definition hex_byte (upper : bool) (b : Z) : list ascii :=
  [hex_digit upper (Z.shiftr b 4); hex_digit upper (Z.land b 15)].

Definition hex (l : list Z) : string :=
  string_of_list_ascii (flat_map (hex_byte false) l).

(** Big-endian bytes of the low [8 * n] bits of [x]. *)
Fixpoint be_bytes (n : nat) (x : Z) : list Z :=
  match n with
  | O => []
  | S n' => Z.land (Z.shiftr x (8 * Z.of_nat n')) 255 :: be_bytes n' x
  end.

Fixpoint be_word (l : list Z) (acc : Z) : Z :=
  match l with
  | [] => acc
  | b :: l' => be_word l' (Z.lor (Z.shiftl acc 8) b)
  end.

End Bytes.

(* ===================================================================== *)
(** ** SHA-256 and HMAC (FIPS 180-4, RFC 2104): node's [crypto.createHmac] *)
(* ===================================================================== *)

Module Crypto.
Import Bytes.

Definition w32 (x : Z) : Z := x mod 4294967296.
Definition add32 (x y : Z) : Z := w32 (x + y).
Definition rotr (n x : Z) : Z :=
  Z.lor (Z.shiftr x n) (w32 (Z.shiftl x (32 - n))).
Definition not32 (x : Z) : Z := Z.lxor x 4294967295.

Definition Ch (x y z : Z) : Z := Z.lxor (Z.land x y) (Z.land (not32 x) z).
Definition Maj (x y z : Z) : Z :=
  Z.lxor (Z.lxor (Z.land x y) (Z.land x z)) (Z.land y z).
Definition Sigma0 (x : Z) : Z :=
  Z.lxor (Z.lxor (rotr 2 x) (rotr 13 x)) (rotr 22 x).
Definition Sigma1 (x : Z) : Z :=
  Z.lxor (Z.lxor (rotr 6 x) (rotr 11 x)) (rotr 25 x).
Definition sigma0 (x : Z) : Z :=
  Z.lxor (Z.lxor (rotr 7 x) (rotr 18 x)) (Z.shiftr x 3).
Definition sigma1 (x : Z) : Z :=
  Z.lxor (Z.lxor (rotr 17 x) (rotr 19 x)) (Z.shiftr x 10).

(** The constants of FIPS 180-4: the first 32 bits of the fractional parts
    of the cube roots of the first 64 primes, and of the square roots of
    the first 8 primes. *)
Definition is_prime (n : Z) : bool :=
  forallb (fun d => negb (n mod d =? 0)) (map Z.of_nat (seq 2 (Z.to_nat n - 2))).

Definition first_primes (n : nat) : list Z :=
  firstn n (filter is_prime (map Z.of_nat (seq 2 310))).

(** The largest [r + x] with [x < 2^k] and [(r + x)^3 <= n]. *)
Fixpoint cube_root (k : nat) (n r : Z) : Z :=
  match k with
  | O => r
  | S k' =>
      let r' := r + 2 ^ Z.of_nat k' in
      if r' * r' * r' <=? n then cube_root k' n r' else cube_root k' n r
  end.

Definition K256 : list Z :=
  Eval vm_compute in
    map (fun p => w32 (cube_root 36 (p * 2 ^ 96) 0)) (first_primes 64).

Definition H256 : list Z :=
  Eval vm_compute in map (fun p => w32 (Z.sqrt (p * 2 ^ 64))) (first_primes 8).

(** The message followed by the bit 1, zero bits up to 56 mod 64 bytes,
    and the message length in bits as a 64-bit big-endian integer. *)
Definition pad (msg : list Z) : list Z :=
  let n := Z.of_nat (length msg) in
  let zeros := Z.to_nat ((55 - n) mod 64) in
  msg ++ 128 :: repeat 0 zeros ++ be_bytes 8 (8 * n).

(** The words of a byte sequence, four bytes each. *)
Fixpoint words (fuel : nat) (l : list Z) : list Z :=
  match fuel, l with
  | S f, a :: b :: c :: d :: l' => be_word [a; b; c; d] 0 :: words f l'
  | _, _ => []
  end.

(** The message schedule, most recent word first: [rev_w] holds
    W(t-1), W(t-2), ... *)
Fixpoint schedule (n : nat) (rev_w : list Z) : list Z :=
  match n with
  | O => rev_w
  | S n' =>
      let w := add32 (add32 (sigma1 (nth 1 rev_w 0)) (nth 6 rev_w 0))
                     (add32 (sigma0 (nth 14 rev_w 0)) (nth 15 rev_w 0)) in
      schedule n' (w :: rev_w)
  end.

Record regs := Regs { ra : Z; rb : Z; rc : Z; rd : Z;
                      re : Z; rf : Z; rg : Z; rh : Z }.

Definition round (r : regs) (kw : Z * Z) : regs :=
  let t1 := add32 (add32 (add32 (rh r) (Sigma1 (re r)))
                         (add32 (Ch (re r) (rf r) (rg r)) (fst kw)))
                  (snd kw) in
  let t2 := add32 (Sigma0 (ra r)) (Maj (ra r) (rb r) (rc r)) in
  Regs (add32 t1 t2) (ra r) (rb r) (rc r) (add32 (rd r) t1) (re r) (rf r) (rg r).

Definition regs_of (h : list Z) : regs :=
  Regs (nth 0 h 0) (nth 1 h 0) (nth 2 h 0) (nth 3 h 0)
       (nth 4 h 0) (nth 5 h 0) (nth 6 h 0) (nth 7 h 0).

Definition compress (h : list Z) (block : list Z) : list Z :=
  let w := rev (schedule 48 (rev (words 16 block))) in
  let r0 := regs_of h in
  let r := fold_left round (combine K256 w) r0 in
  [ add32 (ra r0) (ra r); add32 (rb r0) (rb r);
    add32 (rc r0) (rc r); add32 (rd r0) (rd r);
    add32 (re r0) (re r); add32 (rf r0) (rf r);
    add32 (rg r0) (rg r); add32 (rh r0) (rh r) ].

Fixpoint blocks (fuel : nat) (h : list Z) (l : list Z) : list Z :=
  match fuel, l with
  | S f, _ :: _ => blocks f (compress h (firstn 64 l)) (skipn 64 l)
  | _, _ => h
  end.

Definition sha256 (msg : list Z) : list Z :=
  let p := pad msg in
  flat_map (be_bytes 4) (blocks (length p) H256 p).

Definition hmac_sha256 (key msg : list Z) : list Z :=
  let k0 := if 64 <? Z.of_nat (length key) then sha256 key else key in
  let k := k0 ++ repeat 0 (64 - length k0)%nat in
  sha256 (map (Z.lxor 0x5c) k ++ sha256 (map (Z.lxor 0x36) k ++ msg)).

(** [crypto.createHmac('sha256', key).update(msg).digest('hex')] *)
Definition createHmac_sha256_hex (key msg : string) : string :=
  hex (hmac_sha256 (of_string key) (of_string msg)).

End Crypto.

(* ===================================================================== *)
(** ** The JavaScript runtime the handlers use *)
(* ===================================================================== *)

Module Js.
Import Bytes.

(** *** Values of a parsed JSON body *)

Inductive value :=
| Undefined
| Null
| Bool (b : bool)
| Num (x : float)
| Str (s : string)
| Arr (l : list value)
| Obj (l : list (string * value)).

(** ToBoolean: what [!v], [v || w] and [if (v)] test. *)
Definition truthy (v : value) : bool :=
  match v with
  | Undefined | Null => false
  | Bool b => b
  | Num x => negb (PrimFloat.is_zero x || PrimFloat.is_nan x)
  | Str s => negb (String.eqb s "")
  | Arr _ | Obj _ => true
  end.

(** *** Strings *)

Definition str_of_chars (l : list ascii) : string := string_of_list_ascii l.
Definition chars (s : string) : list ascii := list_ascii_of_string s.

(** [s.substring(a, b)] for [0 <= a <= b]. *)
Definition substring (a b : nat) (s : string) : string :=
  str_of_chars (firstn (b - a) (skipn a (chars s))).

(** [s.toLowerCase()] on ASCII letters. Characters outside ASCII keep
    their bytes, their Unicode mappings are not modelled: the only ones
    that map into ASCII are the Kelvin sign, to k, and the dotted capital
    I, to i and a combining dot, so whether the result is one of the two
    payment types does not depend on them. *)
Definition lower_byte (b : Z) : Z :=
  if (65 <=? b) && (b <=? 90) then b + 32 else b.
Definition toLowerCase (s : string) : string :=
  to_string (map lower_byte (of_string s)).

(** WhiteSpace and LineTerminator code points, as UTF-8. *)
Definition white_space : list (list Z) :=
  [ [9]; [10]; [11]; [12]; [13]; [32];
    [0xC2; 0xA0]; [0xE1; 0x9A; 0x80];
    [0xE2; 0x80; 0x80]; [0xE2; 0x80; 0x81]; [0xE2; 0x80; 0x82];
    [0xE2; 0x80; 0x83]; [0xE2; 0x80; 0x84]; [0xE2; 0x80; 0x85];
    [0xE2; 0x80; 0x86]; [0xE2; 0x80; 0x87]; [0xE2; 0x80; 0x88];
    [0xE2; 0x80; 0x89]; [0xE2; 0x80; 0x8A];
    [0xE2; 0x80; 0xA8]; [0xE2; 0x80; 0xA9]; [0xE2; 0x80; 0xAF];
    [0xE2; 0x81; 0x9F]; [0xE3; 0x80; 0x80]; [0xEF; 0xBB; 0xBF] ].

Fixpoint strip_prefix (p l : list Z) : option (list Z) :=
  match p, l with
  | [], _ => Some l
  | a :: p', b :: l' => if a =? b then strip_prefix p' l' else None
  | _ :: _, [] => None
  end.

Fixpoint strip_any (ps : list (list Z)) (l : list Z) : option (list Z) :=
  match ps with
  | [] => None
  | p :: ps' =>
      match strip_prefix p l with
      | Some r => Some r
      | None => strip_any ps' l
      end
  end.

Fixpoint drop_all (fuel : nat) (ps : list (list Z)) (l : list Z) : list Z :=
  match fuel with
  | O => l
  | S f =>
      match strip_any ps l with
      | Some r => drop_all f ps r
      | None => l
      end
  end.

Definition trimStart_bytes (l : list Z) : list Z :=
  drop_all (length l) white_space l.
Definition trimEnd_bytes (l : list Z) : list Z :=
  rev (drop_all (length l) (map (@rev Z) white_space) (rev l)).

Definition trimStart (s : string) : string :=
  to_string (trimStart_bytes (of_string s)).
(** [s.trim()] *)
Definition trim (s : string) : string :=
  to_string (trimEnd_bytes (trimStart_bytes (of_string s))).

(** *** Encodings *)

Definition is_digit (b : Z) : bool := (48 <=? b) && (b <=? 57).
Definition is_alpha (b : Z) : bool :=
  ((65 <=? b) && (b <=? 90)) || ((97 <=? b) && (b <=? 122)).

Definition percent (b : Z) : list ascii := "%"%char :: hex_byte true b.

(** [encodeURIComponent]: letters, digits and - _ . ! ~ * ' ( ) stay. *)
Definition uri_unreserved (b : Z) : bool :=
  is_alpha b || is_digit b ||
  existsb (Z.eqb b) [45; 95; 46; 33; 126; 42; 39; 40; 41].

Definition encodeURIComponent (s : string) : string :=
  str_of_chars
    (flat_map (fun b => if uri_unreserved b then [ascii_of_byte b] else percent b)
              (of_string s)).

(** The application/x-www-form-urlencoded byte serializer of
    [URLSearchParams]: letters, digits and * - . _ stay, a space becomes +. *)
Definition form_safe (b : Z) : bool :=
  is_alpha b || is_digit b || existsb (Z.eqb b) [42; 45; 46; 95].

Definition form_byte (b : Z) : list ascii :=
  if b =? 32 then ["+"%char]
  else if form_safe b then [ascii_of_byte b]
  else percent b.

Definition form_urlencode (s : string) : string :=
  str_of_chars (flat_map form_byte (of_string s)).

Fixpoint join (sep : string) (l : list string) : string :=
  match l with
  | [] => ""
  | [x] => x
  | x :: l' => x +:+ sep +:+ join sep l'
  end.

(** [new URLSearchParams(record).toString()], the record's properties in
    insertion order, their values already converted to strings. *)
Definition URLSearchParams_toString (params : list (string * string)) : string :=
  join "&" (map (fun kv => form_urlencode (fst kv) +:+ "=" +:+ form_urlencode (snd kv))
                params).

Definition base64_alphabet : list ascii :=
  chars "ABCDEFGHIJKLMNOPQRSTUVWXYZabcdefghijklmnopqrstuvwxyz0123456789+/".

Definition b64 (i : Z) : ascii := nth (Z.to_nat i) base64_alphabet "="%char.

Fixpoint base64_bytes (fuel : nat) (l : list Z) : list ascii :=
  match fuel, l with
  | S f, a :: b :: c :: l' =>
      b64 (Z.shiftr a 2)
      :: b64 (Z.lor (Z.shiftl (Z.land a 3) 4) (Z.shiftr b 4))
      :: b64 (Z.lor (Z.shiftl (Z.land b 15) 2) (Z.shiftr c 6))
      :: b64 (Z.land c 63)
      :: base64_bytes f l'
  | S _, [a; b] =>
      [ b64 (Z.shiftr a 2);
        b64 (Z.lor (Z.shiftl (Z.land a 3) 4) (Z.shiftr b 4));
        b64 (Z.shiftl (Z.land b 15) 2); "="%char ]
  | S _, [a] =>
      [ b64 (Z.shiftr a 2); b64 (Z.shiftl (Z.land a 3) 4); "="%char; "="%char ]
  | _, _ => []
  end.

(** [Buffer.from(s).toString('base64')] *)
Definition base64 (s : string) : string :=
  let l := of_string s in str_of_chars (base64_bytes (length l) l).

(** *** Numbers (binary64) *)

Local Open Scope float_scope.

(** The number with the integer value [n], exact for [|n| <= 2^53]. *)
Definition float_of_Z (n : Z) : float :=
  if (n <? 0)%Z then - PrimFloat.of_uint63 (Uint63.of_Z (- n))
  else PrimFloat.of_uint63 (Uint63.of_Z n).

(** [Math.floor]: NaN, the infinities and the zeros are returned as they
    are; a finite [m * 2^e] with [e >= 0] is an integer already. *)
Definition Math_floor (x : float) : float :=
  match Prim2SF x with
  | S754_finite s m e =>
      if (0 <=? e)%Z then x
      else
        let q := (Z.pos m / 2 ^ (- e))%Z in
        if s then
          (if (Z.pos m mod 2 ^ (- e) =? 0)%Z then x else float_of_Z (- (q + 1)))
        else float_of_Z q
  | _ => x
  end.

(** The binary64 value nearest to [num / den] ([0 < num], [0 < den]), ties
    to the even significand: the Number value of a mathematical value. *)
Definition nearest_float (num den : Z) : float :=
  let l := (Z.log2 num - Z.log2 den)%Z in
  let e1 := (l - 52)%Z in
  (* num / den is in (2^(l-1), 2^(l+1)) *)
  let scaled e := if (0 <=? e)%Z then (num / (den * 2 ^ e))%Z
                  else (num * 2 ^ (- e) / den)%Z in
  let e2 := if (scaled e1 <? 2 ^ 52)%Z then (e1 - 1)%Z else e1 in
  let e := Z.max e2 (-1074) in
  let n' := if (0 <=? e)%Z then num else (num * 2 ^ (- e))%Z in
  let d' := if (0 <=? e)%Z then (den * 2 ^ e)%Z else den in
  let q := (n' / d')%Z in
  let r := (n' mod d')%Z in
  let m := if (2 * r <? d')%Z then q
           else if (d' <? 2 * r)%Z then (q + 1)%Z
           else if Z.even q then q else (q + 1)%Z in
  if (971 <? e)%Z || ((e =? 971)%Z && (2 ^ 53 <=? m)%Z) then infinity
  else Z.ldexp (float_of_Z m) e.

(** Decimal digits of a natural number, most significant first. *)
Fixpoint digits_aux (fuel : nat) (n : Z) (acc : list ascii) : list ascii :=
  match fuel with
  | O => acc
  | S f =>
      let acc' := ascii_of_byte (48 + n mod 10) :: acc in
      if (n <? 10)%Z then acc' else digits_aux f (n / 10) acc'
  end.

Definition digits (n : Z) : list ascii :=
  digits_aux (S (Z.to_nat (Z.log2 n))) n [].

(** The [n] with [10^(n-1) <= num/den < 10^n]. *)
Fixpoint scale_up (fuel : nat) (num den j : Z) : Z :=
  match fuel with
  | O => j
  | S f => if (den <=? num)%Z then j else scale_up f (num * 10) den (j + 1)
  end.

Definition decimal_exponent (num den : Z) : Z :=
  if (den <=? num)%Z then Z.of_nat (length (digits (num / den)))
  else (1 - scale_up 400 (num * 10) den 1)%Z.

(** Number::toString step 5 for the finite positive [m * 2^e]: the
    integers [(s, k, n)] with [k] least such that [s * 10^(n-k)] has [k]
    digits and rounds to the number; among several [s], the closest to the
    number, and the even one of two equally close. *)
Section Shortest.
Variables (m e : Z).

(* In units of [2^(e-2)]: the value is [4m], and a mathematical value
   rounds to it inside [lo, hi], bounds included when [m] is even. *)
Let boundary := ((m =? 2 ^ 52) && (-1074 <? e))%Z.
Let den := (if (e <? 2) then 2 ^ (2 - e) else 1)%Z.
Let unit := (if (e <? 2) then 1 else 2 ^ (e - 2))%Z.
Let v := (4 * m * unit)%Z.
Let lo := ((4 * m - (if boundary then 1 else 2)) * unit)%Z.
Let hi := ((4 * m + 2) * unit)%Z.

(* The candidate [c * 10^q] in the same units: [cn c q / cs q]. *)
Definition cn (c q : Z) : Z := (if (0 <=? q) then c * 10 ^ q * den else c * den)%Z.
Definition cs (q : Z) : Z := (if (0 <=? q) then 1 else 10 ^ (- q))%Z.

Definition rounds_here (c q : Z) : bool :=
  if Z.even m
  then ((lo * cs q <=? cn c q) && (cn c q <=? hi * cs q))%Z
  else ((lo * cs q <? cn c q) && (cn c q <? hi * cs q))%Z.

Definition floor_digits (q : Z) : Z :=
  (if (0 <=? q) then v / (den * 10 ^ q) else v * 10 ^ (- q) / den)%Z.

Definition pick (k n0 : Z) : option (Z * Z * Z) :=
  let q := (n0 - k)%Z in
  let a := floor_digits q in
  let b := (a + 1)%Z in
  let da := (v * cs q - cn a q)%Z in
  let db := (cn b q - v * cs q)%Z in
  let out c := if (c =? 10 ^ k)%Z then Some (10 ^ (k - 1), k, n0 + 1)%Z
               else Some (c, k, n0) in
  match rounds_here a q, rounds_here b q with
  | true, true =>
      if (da <? db)%Z then out a
      else if (db <? da)%Z then out b
      else if Z.even a then out a else out b
  | true, false => out a
  | false, true => out b
  | false, false => None
  end.

Fixpoint search (fuel : nat) (k n0 : Z) : Z * Z * Z :=
  match fuel with
  | O => (floor_digits (n0 - k), k, n0)
  | S f =>
      match pick k n0 with
      | Some r => r
      | None => search f (k + 1)%Z n0
      end
  end.

Definition shortest : Z * Z * Z := search 17 1%Z (decimal_exponent v den).
End Shortest.

Definition zeros (n : Z) : list ascii := repeat "0"%char (Z.to_nat n).

(** Number::toString steps 6 to 10. *)
Definition format_decimal (s k n : Z) : list ascii :=
  let d := digits s in
  if ((k <=? n) && (n <=? 21))%Z then d ++ zeros (n - k)
  else if ((0 <? n) && (n <=? 21))%Z then
    firstn (Z.to_nat n) d ++ "."%char :: skipn (Z.to_nat n) d
  else if ((-6 <? n) && (n <=? 0))%Z then
    "0"%char :: "."%char :: zeros (- n) ++ d
  else
    let ex := (n - 1)%Z in
    let tail := "e"%char :: (if (ex <? 0)%Z then "-"%char else "+"%char)
                         :: digits (Z.abs ex) in
    if (k =? 1)%Z then d ++ tail
    else firstn 1 d ++ "."%char :: skipn 1 d ++ tail.

(** [String(x)], [x.toString()] and [`${x}`] for a number [x]. *)
Definition Number_toString (x : float) : string :=
  match Prim2SF x with
  | S754_nan => "NaN"
  | S754_zero _ => "0"
  | S754_infinity s => if s then "-Infinity" else "Infinity"
  | S754_finite sg m e =>
      let '(s, k, n) := shortest (Z.pos m) e in
      str_of_chars ((if sg then ["-"%char] else []) ++ format_decimal s k n)
  end.

(** [n.toString(36)] for a natural number [n]. *)
Definition digit36 (d : Z) : ascii :=
  if (d <? 10)%Z then ascii_of_byte (48 + d) else ascii_of_byte (87 + d).

Fixpoint base36_aux (fuel : nat) (n : Z) (acc : list ascii) : list ascii :=
  match fuel with
  | O => acc
  | S f =>
      let acc' := digit36 (n mod 36) :: acc in
      if (n <? 36)%Z then acc' else base36_aux f (n / 36) acc'
  end.

Definition Integer_toString36 (n : Z) : string :=
  if (n <? 0)%Z
  then str_of_chars ("-"%char :: base36_aux (S (Z.to_nat (Z.log2 (- n)))) (- n) [])
  else str_of_chars (base36_aux (S (Z.to_nat (Z.log2 n))) n []).

(** *** Conversions between values, strings and numbers *)

(** ToString; an array is joined with commas, its [undefined] and [null]
    elements giving the empty string. *)
Fixpoint ToString (v : value) : string :=
  match v with
  | Undefined => "undefined"
  | Null => "null"
  | Bool b => if b then "true" else "false"
  | Num x => Number_toString x
  | Str s => s
  | Arr l =>
      join "," (map (fun e => match e with
                              | Undefined | Null => ""
                              | _ => ToString e
                              end) l)
  | Obj _ => "[object Object]"
  end.

Fixpoint span_digits (l : list Z) : list Z * list Z :=
  match l with
  | b :: l' =>
      if is_digit b
      then let '(d, r) := span_digits l' in ((b - 48)%Z :: d, r)
      else ([], l)
  | [] => ([], [])
  end.

Definition digits_value (d : list Z) : Z :=
  fold_left (fun a x => (10 * a + x)%Z) d 0%Z.

Definition take_sign (l : list Z) : bool * list Z :=
  match l with
  | 43%Z :: r => (false, r)
  | 45%Z :: r => (true, r)
  | _ => (false, l)
  end.

(** The exponent of the longest ExponentPart at the head of [l], and 0
    when there is none. *)
Definition exponent_part (l : list Z) : Z :=
  match l with
  | c :: r =>
      if ((c =? 101) || (c =? 69))%Z then
        let '(neg, r1) := take_sign r in
        let '(d, _) := span_digits r1 in
        match d with
        | [] => 0%Z
        | _ => if neg then (- digits_value d)%Z else digits_value d
        end
      else 0%Z
  | [] => 0%Z
  end.

(** The Number value of the longest prefix that is a StrDecimalLiteral,
    NaN when no prefix is one. *)
Definition parse_decimal (l : list Z) : float :=
  let '(neg, l1) := take_sign l in
  let signed x := if neg then - x else x in
  match strip_prefix (of_string "Infinity") l1 with
  | Some _ => signed infinity
  | None =>
      let '(ip, l2) := span_digits l1 in
      let '(fp, l3) := match l2 with
                       | 46%Z :: r => span_digits r
                       | _ => ([], l2)
                       end in
      match ip, fp with
      | [], [] => nan
      | _, _ =>
          let mant := digits_value (ip ++ fp) in
          let ex := (exponent_part l3 - Z.of_nat (length fp))%Z in
          if (mant =? 0)%Z then signed PrimFloat.zero
          else if (0 <=? ex)%Z then signed (nearest_float (mant * 10 ^ ex) 1)
          else signed (nearest_float mant (10 ^ (- ex)))
      end
  end.

(** The global [parseFloat]. *)
Definition parseFloat (v : value) : float :=
  parse_decimal (trimStart_bytes (of_string (ToString v))).

(** QuoteJSONString *)
Definition json_char (b : Z) : list ascii :=
  if (b =? 8)%Z then chars "\b"
  else if (b =? 9)%Z then chars "\t"
  else if (b =? 10)%Z then chars "\n"
  else if (b =? 12)%Z then chars "\f"
  else if (b =? 13)%Z then chars "\r"
  else if (b =? 34)%Z then [ascii_of_byte 92; ascii_of_byte 34]
  else if (b =? 92)%Z then [ascii_of_byte 92; ascii_of_byte 92]
  else if (b <? 32)%Z then chars "\u00" ++ hex_byte false b
  else [ascii_of_byte b].

Definition quote (s : string) : string :=
  str_of_chars (ascii_of_byte 34 :: flat_map json_char (of_string s)
                ++ [ascii_of_byte 34]).

(** [JSON.stringify] without indentation: a property whose value is
    [undefined] is left out, an [undefined] array element and a number
    that is not finite are written null. *)
Fixpoint stringify (v : value) : string :=
  match v with
  | Undefined | Null => "null"
  | Bool b => if b then "true" else "false"
  | Num x => if PrimFloat.is_finite x then Number_toString x else "null"
  | Str s => quote s
  | Arr l => "[" +:+ join "," (map stringify l) +:+ "]"
  | Obj l =>
      "{" +:+ join "," (flat_map (fun kv =>
                          match kv with
                          | (_, Undefined) => []
                          | (k, w) => [quote k +:+ ":" +:+ stringify w]
                          end) l) +:+ "}"
  end.

End Js.

(* ===================================================================== *)
(** ** The payment controller *)
(* ===================================================================== *)

Module Payment.
Import Js.

(** *** Configuration *)

(** [process.env.MERCHANT_SECRET] and the merchant's receiving handle: the
    constant [MERCHANT_UPI] of the first version of the controller, and
    [settings.merchantUPI] of the second one.

    Modelled from the spec: [order_cast] is how the Order model
    (models/Order.js is not part of the sources) casts the id given to
    [Order.findById]: the key of the document the id names, or nothing
    when the id cannot be cast, in which case [findById] throws a
    CastError. The order controller expects an id of 24 hexadecimal
    digits and handles that error. *)
Record Config := {
  env_MERCHANT_SECRET : option string;
  MERCHANT_UPI : string;
  order_cast : string -> option string
}.

(** [process.env.MERCHANT_SECRET || 'my_super_secret_key'] *)
Definition MERCHANT_SECRET (cfg : Config) : string :=
  match env_MERCHANT_SECRET cfg with
  | Some s => if String.eqb s "" then "my_super_secret_key" else s
  | None => "my_super_secret_key"
  end.

Definition createSignature (cfg : Config) (payload : string) : string :=
  Crypto.createHmac_sha256_hex (MERCHANT_SECRET cfg) payload.

(** *** The collections *)

(** Modelled from the spec: the Transaction schema (models/Transaction.js
    is not part of the sources). A payment intent has the fields the
    controller reads and writes; [status] is an open string; [createdAt]
    is set by the store when the document is first saved; [completedAt]
    is null until a verification sets it. *)
Record Transaction := {
  tid : string;
  userId : option string;
  orderId : option string;
  amount : float;
  payType : string;
  upi : string;
  status : string;
  payload : string;
  signature : string;
  redirectUrl : string;
  note : string;
  expires : Z;
  createdAt : Z;
  completedAt : option Z
}.

(** Modelled from the spec: the Order schema (models/Order.js is not part
    of the sources): the two fields the payment lifecycle updates, and
    the rest of the document. *)
Record Order := {
  paymentStatus : string;
  orderStatus : string;
  orderDetails : value
}.

(** Modelled from the spec: the durable store. Intents are keyed by their
    transaction id, which is their primary key; orders by their id. *)
Record State := {
  transactions : gmap string Transaction;
  orders : gmap string Order
}.

(** A write issued to the store: [transaction.save()], [order.save()]. *)
Inductive Write :=
| SaveTransaction (t : string)
| SaveOrder (o : string).

Definition set_status (s : string) (t : Transaction) : Transaction :=
  {| tid := tid t; userId := userId t; orderId := orderId t;
     amount := amount t; payType := payType t; upi := upi t;
     status := s;
     payload := payload t; signature := signature t;
     redirectUrl := redirectUrl t; note := note t; expires := expires t;
     createdAt := createdAt t; completedAt := completedAt t |}.

Definition set_completedAt (d : Z) (t : Transaction) : Transaction :=
  {| tid := tid t; userId := userId t; orderId := orderId t;
     amount := amount t; payType := payType t; upi := upi t;
     status := status t;
     payload := payload t; signature := signature t;
     redirectUrl := redirectUrl t; note := note t; expires := expires t;
     createdAt := createdAt t; completedAt := Some d |}.

Definition set_order (ps s : string) (o : Order) : Order :=
  {| paymentStatus := ps; orderStatus := s; orderDetails := orderDetails o |}.

(** [transaction.save()] of the document stored under [key]. *)
Definition put_transaction (key : string) (t : Transaction) (st : State) : State :=
  {| transactions := <[key := t]> (transactions st); orders := orders st |}.

(** Modelled from the spec: the first [transaction.save()] of a new
    document. The transaction id is the primary key of the collection, so
    the store refuses a second document under an id it already holds. *)
Definition save_new (t : Transaction) (st : State) : option State :=
  match transactions st !! tid t with
  | Some _ => None
  | None => Some (put_transaction (tid t) t st)
  end.

(** [order.save()] *)
Definition put_order (id : string) (o : Order) (st : State) : State :=
  {| transactions := transactions st; orders := <[id := o]> (orders st) |}.

(** *** Responses *)

(** The error replies of the three handlers. *)
Inductive Failure :=
| InvalidPayload
| UnsupportedPaymentType
| TidRequired
| TidAndStatusRequired
| NotFound
| SignatureMismatch
| AlreadyProcessed (current : string)
| InternalFailure (what : string).

(** [res.status(code)] *)
Definition http_status (f : Failure) : Z :=
  match f with
  | NotFound => 404
  | InternalFailure _ => 500
  | _ => 400
  end.

(** The [error] field of the reply. *)
Definition error_text (f : Failure) : string :=
  match f with
  | InvalidPayload => "Invalid payload"
  | UnsupportedPaymentType => "Unsupported payment type"
  | TidRequired => "Transaction ID is required"
  | TidAndStatusRequired => "Transaction ID and status are required"
  | NotFound => "Transaction not found"
  | SignatureMismatch => "Invalid signature"
  | AlreadyProcessed current => "Transaction already " +:+ current
  | InternalFailure what => what
  end.

Inductive Reply (A : Type) :=
| Json200 (body : A)
| Fail (f : Failure).
Arguments Json200 {A} body.
Arguments Fail {A} f.

(** The outcome of a call: the reply, the state after it, the writes. *)
Definition Outcome (A : Type) : Type := Reply A * State * list Write.

Definition reply {A} (o : Outcome A) : Reply A := fst (fst o).
Definition after {A} (o : Outcome A) : State := snd (fst o).
Definition writes {A} (o : Outcome A) : list Write := snd o.
Arguments reply {A} o /.
Arguments after {A} o /.
Arguments writes {A} o /.

Definition succeeded {A} (r : Reply A) : bool :=
  match r with Json200 _ => true | Fail _ => false end.

(** *** Requests *)

(** What a call reads from the clock and the random source. *)
Record Oracle := {
  tid_clock : Z;           (* Date.now() in generateTransactionId *)
  tid_random36 : string;   (* Math.random().toString(36), same place *)
  expires_clock : Z;       (* Date.now() in createPayment *)
  note_random : float;     (* Math.random() in generateNote *)
  save_clock : Z           (* the time transaction.save() stamps *)
}.

(** The body of POST /create. [amount] and [payType] are any JSON value,
    or [Undefined] when missing; the two identifiers are missing or a
    string. *)
Record CreateRequest := {
  c_amount : value;
  c_payType : value;
  c_orderId : option string;
  c_userId : option string
}.

Record CreateResponse := {
  redirect_url : string;
  r_payload : string;
  sig : string;
  r_expires : Z;
  r_tid : string;
  r_amount : string
}.

(** The body of POST /verify: each field missing or a string. *)
Record VerifyRequest := {
  q_tid : option string;
  q_status : option string;
  q_signature : option string
}.

Record VerifyResponse := {
  success : bool;
  message : string;
  v_tid : string;
  v_status : string;
  v_amount : float
}.

Record StatusView := {
  s_tid : string;
  s_status : string;
  s_amount : float;
  s_payType : string;
  s_upi : string;
  s_createdAt : Z;
  s_completedAt : option Z
}.

(** Truthiness of an optional string field. *)
Definition given (f : option string) : bool :=
  match f with
  | Some s => negb (String.eqb s "")
  | None => false
  end.

(** [f || null] *)
Definition or_null (f : option string) : option string :=
  if given f then f else None.

(** *** createPayment *)

Definition generateTransactionId (o : Oracle) : string :=
  "cw" +:+ Integer_toString36 (tid_clock o) +:+ substring 2 15 (tid_random36 o).

Definition generateNote (o : Oracle) : string :=
  "s" +:+ Number_toString (Math_floor (note_random o * 900) + 100)%float.

Definition phonepe_payloadJson (upi note : string) (paymentAmount : float) : value :=
  Obj [ ("contact",
         Obj [ ("cbsName", Str ""); ("nickName", Str "");
               ("vpa", Str upi); ("type", Str "VPA") ]);
        ("p2pPaymentCheckoutParams",
         Obj [ ("note", Str note);
               ("isByDefaultKnownContact", Bool true);
               ("initialAmount", Num (Math_floor (paymentAmount * 100)%float));
               ("currency", Str "INR");
               ("checkoutType", Str "DEFAULT");
               ("transactionContext", Str "p2p") ]) ].

Definition paytm_queryParams (upi note : string) (paymentAmount : float)
  : list (string * string) :=
  [ ("pa", upi); ("am", Number_toString paymentAmount); ("tn", note);
    ("pn", upi); ("mc", ""); ("cu", "INR"); ("url", ""); ("mode", "");
    ("purpose", ""); ("orgid", ""); ("sign", "");
    ("featuretype", "money_transfer") ].

Definition paytm_payloadJson (redirectUrl tid : string) (expires : Z) : value :=
  Obj [ ("redirect", Str redirectUrl); ("tid", Str tid);
        ("exp", Num (float_of_Z expires)) ].

Definition createPayment (cfg : Config) (o : Oracle) (req : CreateRequest)
  (st : State) : Outcome CreateResponse :=
  if negb (truthy (c_amount req)) || negb (truthy (c_payType req)) then
    (Fail InvalidPayload, st, [])
  else
    let paymentAmount := parseFloat (c_amount req) in
    match c_payType req with
    | Str payType =>
        let paymentType := trim (toLowerCase payType) in
        if negb (String.eqb paymentType "phonepe" || String.eqb paymentType "paytm")
        then (Fail UnsupportedPaymentType, st, [])
        else
          let tid := generateTransactionId o in
          let expires := (expires_clock o / 1000 + 600)%Z in
          let note := generateNote o in
          let '(redirectUrl, payloadB64, signature) :=
            if String.eqb paymentType "phonepe" then
              let payloadJson :=
                phonepe_payloadJson (MERCHANT_UPI cfg) note paymentAmount in
              let payloadStr := stringify payloadJson in
              let payloadB64 := base64 payloadStr in
              let signature := createSignature cfg payloadB64 in
              let payloadUrlenc := encodeURIComponent payloadB64 in
              ("phonepe://native?data=" +:+ payloadUrlenc +:+ "&id=p2ppayment",
               payloadB64, signature)
            else
              (* paymentType is "paytm" here *)
              let queryParams :=
                paytm_queryParams (MERCHANT_UPI cfg) note paymentAmount in
              let redirectUrl :=
                "paytmmp://cash_wallet?" +:+ URLSearchParams_toString queryParams in
              let payloadJson := paytm_payloadJson redirectUrl tid expires in
              let payloadStr := stringify payloadJson in
              let payloadB64 := base64 payloadStr in
              let signature := createSignature cfg payloadB64 in
              (redirectUrl, payloadB64, signature) in
          let response :=
            {| redirect_url := redirectUrl; r_payload := payloadB64;
               sig := signature; r_expires := expires; r_tid := tid;
               r_amount := Number_toString paymentAmount |} in
          let transaction :=
            {| tid := tid; userId := or_null (c_userId req);
               orderId := or_null (c_orderId req);
               amount := paymentAmount; payType := paymentType;
               upi := MERCHANT_UPI cfg; status := "pending";
               payload := payloadB64; signature := signature;
               redirectUrl := redirectUrl; note := note;
               expires := (expires * 1000)%Z;
               createdAt := save_clock o; completedAt := None |} in
          match save_new transaction st with
          | None => (Fail (InternalFailure "Failed to create payment"), st, [])
          | Some st' => (Json200 response, st', [SaveTransaction tid])
          end
    | _ =>
        (* payType.toLowerCase is not a function *)
        (Fail (InternalFailure "Failed to create payment"), st, [])
    end.

(** *** checkPaymentStatus *)

Definition view (t : Transaction) : StatusView :=
  {| s_tid := tid t; s_status := status t; s_amount := amount t;
     s_payType := payType t; s_upi := upi t; s_createdAt := createdAt t;
     s_completedAt := completedAt t |}.

Definition checkPaymentStatus (now : Z) (tid : string) (st : State)
  : Outcome StatusView :=
  if String.eqb tid "" then (Fail TidRequired, st, [])
  else
    match transactions st !! tid with
    | None => (Fail NotFound, st, [])
    | Some transaction =>
        if String.eqb (status transaction) "pending"
           && (expires transaction <? now)%Z
        then
          let transaction := set_status "expired" transaction in
          (Json200 (view transaction), put_transaction tid transaction st,
           [SaveTransaction tid])
        else (Json200 (view transaction), st, [])
    end.

(** *** verifyPayment *)

Definition reconcile (status : string) (order : Order) : Order :=
  if String.eqb status "success" then set_order "paid" "confirmed" order
  else if String.eqb status "failed" then set_order "failed" "cancelled" order
  else order.

(** The order a transaction points to: [transaction.orderId] when it is
    truthy. *)
Definition linked_order (t : Transaction) : option string := or_null (orderId t).

Definition verifyPayment (cfg : Config) (now : Z) (req : VerifyRequest)
  (st : State) : Outcome VerifyResponse :=
  if negb (given (q_tid req)) || negb (given (q_status req)) then
    (Fail TidAndStatusRequired, st, [])
  else
    let tid := default "" (q_tid req) in
    let status := default "" (q_status req) in
    match transactions st !! tid with
    | None => (Fail NotFound, st, [])
    | Some transaction =>
        if given (q_signature req)
           && negb (String.eqb (default "" (q_signature req))
                               (createSignature cfg (payload transaction)))
        then (Fail SignatureMismatch, st, [])
        else if negb (String.eqb (Payment.status transaction) "pending") then
          (Fail (AlreadyProcessed (Payment.status transaction)), st, [])
        else
          let transaction := set_completedAt now (set_status status transaction) in
          let st1 := put_transaction tid transaction st in
          let body :=
            {| success := true; message := "Payment " +:+ status;
               v_tid := Payment.tid transaction;
               v_status := Payment.status transaction;
               v_amount := amount transaction |} in
          match linked_order transaction with
          | Some oid =>
              match order_cast cfg oid with
              | Some key =>
                  match orders st1 !! key with
                  | Some order =>
                      (Json200 body, put_order key (reconcile status order) st1,
                       [SaveTransaction tid; SaveOrder key])
                  | None => (Json200 body, st1, [SaveTransaction tid])
                  end
              | None =>
                  (* Order.findById throws; the catch answers 500, after
                     the transaction was saved *)
                  (Fail (InternalFailure "Failed to verify payment"), st1,
                   [SaveTransaction tid])
              end
          | None => (Json200 body, st1, [SaveTransaction tid])
          end
    end.

End Payment.

(* ===================================================================== *)
(** ** Runs of the system *)
(* ===================================================================== *)

Module Lifecycle.
Import Payment.

(** One request served. Orders are created and edited by the order
    controller, which never touches a transaction. *)
Inductive step (cfg : Config) : State -> State -> Prop :=
| step_create o req st :
    step cfg st (after (createPayment cfg o req st))
| step_status now tid st :
    step cfg st (after (checkPaymentStatus now tid st))
| step_verify now req st :
    step cfg st (after (verifyPayment cfg now req st))
| step_orders os st :
    step cfg st {| transactions := transactions st; orders := os |}.

(** The states a deployment can be in: it starts without transactions. *)
Inductive reachable (cfg : Config) : State -> Prop :=
| reach_start os : reachable cfg {| transactions := ∅; orders := os |}
| reach_step st st' : reachable cfg st -> step cfg st st' -> reachable cfg st'.

(** Every field but [status] agrees. *)
Definition same_but_status (t t' : Transaction) : Prop :=
  tid t' = tid t /\ userId t' = userId t /\ orderId t' = orderId t /\
  amount t' = amount t /\ payType t' = payType t /\ upi t' = upi t /\
  payload t' = payload t /\ signature t' = signature t /\
  redirectUrl t' = redirectUrl t /\ note t' = note t /\
  expires t' = expires t /\ createdAt t' = createdAt t /\
  completedAt t' = completedAt t.

(** Every field but [status] and [completedAt] agrees. *)
Definition same_but_outcome (t t' : Transaction) : Prop :=
  tid t' = tid t /\ userId t' = userId t /\ orderId t' = orderId t /\
  amount t' = amount t /\ payType t' = payType t /\ upi t' = upi t /\
  payload t' = payload t /\ signature t' = signature t /\
  redirectUrl t' = redirectUrl t /\ note t' = note t /\
  expires t' = expires t /\ createdAt t' = createdAt t.

(** The refusals [verifyPayment] issues before it assigns anything. *)
Definition refusal (f : Failure) : Prop :=
  f = TidAndStatusRequired \/ f = NotFound \/ f = SignatureMismatch \/
  exists current, f = AlreadyProcessed current.

(** The payment types [createPayment] accepts, after normalisation. *)
Definition supported (paymentType : string) : bool :=
  String.eqb paymentType "phonepe" || String.eqb paymentType "paytm".

(** A verify request passes the field and signature checks on [t]. *)
Definition well_signed (cfg : Config) (req : VerifyRequest) (t : Transaction) : Prop :=
  given (q_tid req) = true /\ given (q_status req) = true /\
  (given (q_signature req) = false \/
   q_signature req = Some (createSignature cfg (payload t))).

(** The body of a 200 reply. *)
Definition body_of {A} (r : Reply A) : option A :=
  match r with
  | Json200 b => Some b
  | Fail _ => None
  end.

End Lifecycle.


(* ===================================================================== *)
(** ** The rest of the payment controller, and the order controller *)
(* ===================================================================== *)

Module Merchant.
Import Payment.

(** [getMerchantUPI]: the body [{upi}] of its 200 reply. *)
Definition getMerchantUPI (cfg : Config) : Reply string :=
  Json200 (MERCHANT_UPI cfg).

End Merchant.

Module Orders.
Import Js Payment.

(** *** getCardType and the card fields of createOrder *)

Definition digit_char (c : ascii) : bool := is_digit (Bytes.byte_of_ascii c).

(** [s.replace(/\D/g, '')]: the decimal digits of [s], in order. *)
Definition digits_only (s : string) : string :=
  str_of_chars (List.filter digit_char (chars s)).

Fixpoint starts (p s : list ascii) : bool :=
  match p, s with
  | [], _ => true
  | a :: p', b :: s' => Ascii.eqb a b && starts p' s'
  | _ :: _, [] => false
  end.

(** [s.startsWith(p)] *)
Definition startsWith (p s : string) : bool := starts (chars p) (chars s).

Definition getCardType (cardNumber : string) : string :=
  let cleanNumber := digits_only cardNumber in
  if startsWith "4" cleanNumber then "Visa"
  else if startsWith "5" cleanNumber || startsWith "2" cleanNumber then "MasterCard"
  else if startsWith "3" cleanNumber then "Amex"
  else if startsWith "6" cleanNumber then "Discover"
  else "Other".

(** [s.slice(-n)]: the last [n] characters, the whole string when it is
    shorter. *)
Definition slice_last (n : nat) (s : string) : string :=
  str_of_chars (skipn (length (chars s) - n) (chars s)).

(** The fields of [processedCardDetails] that createOrder computes from
    [cardDetails.number]. *)
Record CardFields := {
  cardNumber : string;
  cardNumberLast4 : string;
  cardType : string
}.

Definition processCardNumber (number : string) : CardFields :=
  let cleanCardNumber := digits_only number in
  {| cardNumber := cleanCardNumber;
     cardNumberLast4 := slice_last 4 cleanCardNumber;
     cardType := getCardType cleanCardNumber |}.

(** *** The handlers on one order *)

(** A reply of the order controller: the data of a 200 reply, or the status
    code and the [error] text of a refusal. *)
Inductive OrderReply (A : Type) :=
| Ok200 (data : A)
| Refused (code : Z) (error : string).
Arguments Ok200 {A} data.
Arguments Refused {A} code error.

Definition is_hex (b : Z) : bool :=
  is_digit b || ((97 <=? b) && (b <=? 102)) || ((65 <=? b) && (b <=? 70)).

(** [id.match(/^[0-9a-fA-F]{24}$/)] *)
Definition is_object_id (id : string) : bool :=
  Nat.eqb (length (Bytes.of_string id)) 24 && forallb is_hex (Bytes.of_string id).

(** [!id || id === 'undefined' || id === 'null'] *)
Definition no_id (id : string) : bool :=
  String.eqb id "" || String.eqb id "undefined" || String.eqb id "null".

(** Modelled from the spec: the order collection keys a document by the
    hexadecimal form of its ObjectId, which is written in lower case; an
    id of 24 hexadecimal digits names the document whatever its case. *)
Definition order_key (id : string) : string := toLowerCase id.

(** [v[k]] for an object [v], [undefined] otherwise. *)
Definition property (k : string) (v : value) : value :=
  match v with
  | Obj l =>
      match find (fun kv => String.eqb (fst kv) k) l with
      | Some kv => snd kv
      | None => Undefined
      end
  | _ => Undefined
  end.

(** [order.orderNumber] *)
Definition orderNumber (o : Order) : value := property "orderNumber" (orderDetails o).

Definition getOrderById (id : string) (st : State) : OrderReply Order :=
  if no_id id then Refused 400 "Valid order ID is required"
  else if negb (is_object_id id) then Refused 400 "Invalid order ID format"
  else
    match orders st !! order_key id with
    | None => Refused 404 "Order not found"
    | Some order => Ok200 order
    end.

(** The data of deleteOrder's 200 reply. *)
Record Deleted := {
  d_orderId : string;
  d_orderNumber : value
}.

Definition deleteOrder (id : string) (st : State) : OrderReply Deleted * State :=
  if no_id id then (Refused 400 "Valid order ID is required", st)
  else if negb (is_object_id id) then (Refused 400 "Invalid order ID format", st)
  else
    match orders st !! order_key id with
    | None => (Refused 404 "Order not found", st)
    | Some order =>
        (Ok200 {| d_orderId := id; d_orderNumber := orderNumber order |},
         {| transactions := transactions st;
            orders := delete (order_key id) (orders st) |})
    end.

Definition validStatuses : list string :=
  ["pending"; "confirmed"; "processing"; "shipped"; "delivered"; "cancelled"].

(** [validStatuses.includes(status)]: only a string is the same value as
    one of the list. *)
Definition includes_status (status : value) : bool :=
  match status with
  | Str s => existsb (String.eqb s) validStatuses
  | _ => false
  end.

(** The data of updateOrderStatus's 200 reply. *)
Record Updated := {
  u_orderId : string;
  u_orderNumber : value;
  u_status : string
}.

Section UpdateOrderStatus.

(** How the store casts the route parameter to an ObjectId: the key of the
    document it names, or nothing when the cast fails (a CastError). The
    handler does not check the id itself. *)
Variable castObjectId : string -> option string.

Definition updateOrderStatus (id : string) (status : value) (st : State)
  : OrderReply Updated * State :=
  match status with
  | Str s =>
      if negb (includes_status status) then (Refused 400 "Invalid order status", st)
      else
        match castObjectId id with
        | None => (Refused 500 "Failed to update order status", st)
        | Some key =>
            match orders st !! key with
            | None => (Refused 404 "Order not found", st)
            | Some order =>
                let updatedOrder := set_order (paymentStatus order) s order in
                (Ok200 {| u_orderId := key;
                          u_orderNumber := orderNumber updatedOrder;
                          u_status := orderStatus updatedOrder |},
                 put_order key updatedOrder st)
            end
        end
  | _ => (Refused 400 "Invalid order status", st)
  end.

End UpdateOrderStatus.

End Orders.

Module Observe.
Import Payment.

(** The number of occurrences of a character in a string. *)
Definition count_char (c : ascii) (s : string) : nat :=
  length (List.filter (Ascii.eqb c) (Js.chars s)).

(** The characters of a string are all lower-case hexadecimal digits. *)
Definition lower_hex (s : string) : bool :=
  forallb (fun b => Js.is_digit b || ((97 <=? b) && (b <=? 102))) (Bytes.of_string s).

(** The characters that separate the parts of a link. *)
Definition separator (c : ascii) : Prop :=
  c = "&"%char \/ c = "="%char \/ c = "?"%char \/ c = "#"%char.

(** The bounds of the stored expiry of an intent created when the clock
    read [c]: the next whole second at or after 599.001 s later. *)
Definition expiry_of (c : Z) : Z := (c / 1000 + 600) * 1000.

(** What every intent of a reachable state satisfies. *)
Definition well_formed (key : string) (t : Transaction) : Prop :=
  tid t = key /\
  Orders.startsWith "cw" key = true /\
  Lifecycle.supported (payType t) = true /\
  status t <> "" /\
  orderId t <> Some "" /\
  expires t mod 1000 = 0 /\
  (completedAt t = None -> status t = "pending" \/ status t = "expired").

End Observe.

(* ===================================================================== *)
(** ** A sample run *)
(* ===================================================================== *)

Module Sample.
Import Payment.

(** The deployment of the sample run: no secret in the environment, and
    a store that names an order by 24 hexadecimal digits. *)
Definition cfg : Config :=
  {| env_MERCHANT_SECRET := None; MERCHANT_UPI := "mstandwafuelcentre@sbi";
     order_cast := fun id =>
       if Orders.is_object_id id then Some (Orders.order_key id) else None |}.

Definition oracle : Oracle :=
  {| tid_clock := 1730000000000; tid_random36 := "0.4fzyo82mvyr";
     expires_clock := 1730000000123; note_random := 0x1.8p-2%float;
     save_clock := 1730000000200 |}.

Definition order : Order :=
  {| paymentStatus := "unpaid"; orderStatus := "pending";
     orderDetails := Js.Obj [("orderNumber", Js.Str "ORD-1")] |}.

(** The id of the sample order. *)
Definition order_id : string := "65f0c2a4e1b7d9035a6c8e42".

Definition start : State :=
  {| transactions := ∅; orders := {[ order_id := order ]} |}.

(** [{amount: 100, payType: "PhonePe", orderId: "65f0c2a4e1b7d9035a6c8e42"}] *)
Definition phonepe_request : CreateRequest :=
  {| c_amount := Js.Num 100; c_payType := Js.Str "PhonePe";
     c_orderId := Some order_id; c_userId := None |}.

(** [{amount: 50, payType: "paytm"}] *)
Definition paytm_request : CreateRequest :=
  {| c_amount := Js.Num 50; c_payType := Js.Str "paytm";
     c_orderId := None; c_userId := None |}.

(** [{amount: 0, payType: "phonepe"}] *)
Definition zero_request : CreateRequest :=
  {| c_amount := Js.Num 0; c_payType := Js.Str "phonepe";
     c_orderId := None; c_userId := None |}.



(** The JSON number 0.29, the binary64 value nearest to 29/100. *)
Definition amount_0_29 : float := 0x1.28f5c28f5c28fp-2%float.

(** [{amount: 0.29, payType: "phonepe"}] *)
Definition paise_request : CreateRequest :=
  {| c_amount := Js.Num amount_0_29; c_payType := Js.Str "phonepe";
     c_orderId := None; c_userId := None |}.

Definition the_tid : string := "cwm2r1bz7k4fzyo82mvyr".

(** The state after the intent for [phonepe_request] was created. *)
Definition created : State :=
  after (createPayment cfg oracle phonepe_request start).

Definition the_intent : Transaction :=
  Eval vm_compute in
    default {| tid := ""; userId := None; orderId := None; amount := 0;
               payType := ""; upi := ""; status := ""; payload := "";
               signature := ""; redirectUrl := ""; note := ""; expires := 0;
               createdAt := 0; completedAt := None |}
            (transactions created !! the_tid).

Definition report (status : string) (signature : option string) : VerifyRequest :=
  {| q_tid := Some the_tid; q_status := Some status; q_signature := signature |}.

(** Ten minutes and one second after the creation. *)
Definition late : Z := 1730000601123.

(** The state after the status of the sample intent was read at [late]. *)
Definition lapsed : State := after (checkPaymentStatus late the_tid created).

(** The state after the sample intent was verified as a success. *)
Definition paid : State :=
  after (verifyPayment cfg 1730000100000 (report "success" None) created).

End Sample.

(* ===================================================================== *)
(** ** A sample order store *)
(* ===================================================================== *)

Module Demo.
Import Payment.

(** The id of the sample order, as a client may write it. *)
Definition order_id : string := "64B7F1A2C3D4E5F6A7B8C9D0".

Definition shop : State :=
  {| transactions := ∅;
     orders := {[ Orders.order_key order_id := Sample.order ]} |}.

(** A store that casts exactly the ids of 24 hexadecimal digits. *)
Definition castObjectId (id : string) : option string :=
  if Orders.is_object_id id then Some (Orders.order_key id) else None.

(** [{amount: 100, payType: "phonepe", orderId: "64B7F1A2C3D4E5F6A7B8C9D0"}]:
    a payment for the sample order, its id written in upper case. *)
Definition linked_request : CreateRequest :=
  {| c_amount := Js.Num 100; c_payType := Js.Str "phonepe";
     c_orderId := Some order_id; c_userId := None |}.

(** The shop after the intent for [linked_request] was created. *)
Definition linked : State :=
  after (createPayment Sample.cfg Sample.oracle linked_request shop).

(** [{amount: 100, payType: "phonepe", orderId: "o1"}]: a payment whose
    orderId is not the id of an order. *)
Definition stray_request : CreateRequest :=
  {| c_amount := Js.Num 100; c_payType := Js.Str "phonepe";
     c_orderId := Some "o1"; c_userId := None |}.

(** The shop after the intent for [stray_request] was created. *)
Definition stray : State :=
  after (createPayment Sample.cfg Sample.oracle stray_request shop).

End Demo.

Import Payment Lifecycle.

(** Proof step: the three ways [verifyPayment] can go once the intent is
    found (signature refused, already processed, accepted). *)
Ltac verify_cases Hsig Hst :=
  match goal with
  | |- context [given (q_signature ?r) && negb (String.eqb ?a ?b)] =>
      destruct (given (q_signature r) && negb (String.eqb a b)) eqn:Hsig
  end;
  [| match goal with
     | |- context [negb (String.eqb (status ?t) "pending")] =>
         destruct (String.eqb (status t) "pending") eqn:Hst; simpl
     end ].

(** Proof step: name the facts of a successful creation (the statement of
    [create_success] below, passed as [H]). *)
Ltac created_facts H :=
  let s := fresh "s" in
  let t := fresh "t" in
  destruct H
    as (s & t & Hs & Hout & Hfresh & Htid & Hre & Hmac & Hamt & Ht & Huid
        & Hoid & Ham & Hpt & Hsup & Hupi & Hst & Hpl & Hsg & Hru & Hnote
        & Hex & Hcr & Hco).

(* ===================================================================== *)
(** ** Properties *)
(* ===================================================================== *)

(** *** Auxiliary facts *)

Lemma given_Some (f : option string) :
  given f = true -> exists s, f = Some s /\ s <> "".
Proof.
  destruct f as [s|]; simpl; [|discriminate].
  intros H. exists s. split; [reflexivity|].
  intros ->. discriminate.
Qed.

Lemma set_status_same_but_status (s : string) (t : Transaction) :
  same_but_status t (set_status s t).
Proof. repeat split. Qed.

Lemma same_but_status_refl (t : Transaction) : same_but_status t t.
Proof. repeat split. Qed.

(** A [verifyPayment] that fails with anything but the 500 of its catch
    was refused by one of its checks: it returns the state it was given
    and issues no write. *)
Lemma verify_failure_frame cfg now req st f :
  reply (verifyPayment cfg now req st) = Fail f ->
  f <> InternalFailure "Failed to verify payment" ->
  verifyPayment cfg now req st = (Fail f, st, []) /\ refusal f.
Proof.
  unfold verifyPayment, refusal.
  destruct (negb (given (q_tid req)) || negb (given (q_status req))).
  { simpl. intros [= <-] _. auto. }
  destruct (transactions st !! default "" (q_tid req)) as [t|].
  2: { simpl. intros [= <-] _. auto. }
  verify_cases Hsig Hst.
  - simpl. intros [= <-] _. auto.
  - destruct (linked_order _) as [oid|]; [|discriminate].
    destruct (order_cast cfg oid) as [key|].
    + destruct (orders _ !! key); discriminate.
    + simpl. intros [= <-] Hne. contradiction.
  - intros [= <-] _. eauto 6.
Qed.


(** What [verifyPayment] does to the transactions: nothing, when one of
    its checks refuses the request; or the one transition of a pending
    intent to the reported status, after which the call succeeds, or
    answers 500 when the id of the linked order cannot be cast. *)
Lemma verify_effect cfg now req st :
  (exists f, verifyPayment cfg now req st = (Fail f, st, []) /\ refusal f) \/
  (exists tid reported t,
      q_tid req = Some tid /\ q_status req = Some reported /\
      reported <> "" /\
      transactions st !! tid = Some t /\ status t = "pending" /\
      well_signed cfg req t /\
      (succeeded (reply (verifyPayment cfg now req st)) = true \/
       (reply (verifyPayment cfg now req st)
        = Fail (InternalFailure "Failed to verify payment") /\
        exists oid, linked_order t = Some oid /\ order_cast cfg oid = None)) /\
      transactions (after (verifyPayment cfg now req st))
      = <[tid := set_completedAt now (set_status reported t)]> (transactions st)).
Proof.
  unfold verifyPayment, well_signed, refusal.
  destruct (given (q_tid req)) eqn:Hgt; simpl; [|left; eauto].
  destruct (given (q_status req)) eqn:Hgs; simpl; [|left; eauto].
  destruct (given_Some _ Hgt) as (tid & -> & Htid).
  destruct (given_Some _ Hgs) as (reported & -> & Hrep). simpl.
  destruct (transactions st !! tid) as [t|] eqn:Hin; [|left; eauto 6].
  verify_cases Hsig Hst; [left; eauto 6| |left; eauto 8].
  right. exists tid, reported, t.
  apply String.eqb_eq in Hst.
  split; [reflexivity|]. split; [reflexivity|]. split; [exact Hrep|].
  split; [exact Hin|]. split; [exact Hst|]. split.
  { split; [reflexivity|]. split; [reflexivity|].
    apply andb_false_iff in Hsig as [Hg | Hne]; [now left|].
    destruct (q_signature req) as [sg|]; [|now left].
    right. apply negb_false_iff, String.eqb_eq in Hne. simpl in Hne. now subst. }
  change (linked_order (set_completedAt now (set_status reported t)))
    with (linked_order t).
  destruct (linked_order t) as [oid|]; [|split; [now left | reflexivity]].
  destruct (order_cast cfg oid) as [key|] eqn:Hcast.
  - destruct (orders _ !! key); (split; [now left | reflexivity]).
  - split; [|reflexivity]. right. split; [reflexivity|]. eauto.
Qed.

(** What [checkPaymentStatus] does to the state: nothing, or the one
    transition of a lapsed pending intent to expired. *)
Lemma status_effect now tid st :
  (after (checkPaymentStatus now tid st) = st /\
   writes (checkPaymentStatus now tid st) = []) \/
  (exists t,
      transactions st !! tid = Some t /\ status t = "pending" /\
      expires t < now /\
      checkPaymentStatus now tid st
      = (Json200 (view (set_status "expired" t)),
         put_transaction tid (set_status "expired" t) st,
         [SaveTransaction tid])).
Proof.
  unfold checkPaymentStatus.
  destruct (String.eqb tid ""); [now left|].
  destruct (transactions st !! tid) as [t|]; [|now left].
  destruct (String.eqb (status t) "pending") eqn:Hst; simpl; [|now left].
  destruct (expires t <? now) eqn:Hex; [|now left].
  right. exists t. apply String.eqb_eq in Hst. apply Z.ltb_lt in Hex.
  repeat split; assumption.
Qed.

(** What [createPayment] does to the state: nothing, or one new pending
    intent under a fresh transaction id, signed over its payload. *)
Lemma create_effect cfg o req st :
  (after (createPayment cfg o req st) = st) \/
  (exists t,
      transactions st !! tid t = None /\ status t = "pending" /\
      signature t = createSignature cfg (payload t) /\
      after (createPayment cfg o req st) = put_transaction (tid t) t st).
Proof.
  unfold createPayment, save_new.
  destruct (negb (Js.truthy (c_amount req)) || negb (Js.truthy (c_payType req)));
    [now left|].
  destruct (c_payType req) as [| |b|x|payType|l|l]; try now left.
  destruct (negb _); [now left|].
  destruct (String.eqb _ "phonepe"); cbv beta iota zeta;
    (destruct (transactions st !! Payment.tid _) eqn:Hfresh; cbv iota;
     [now left|]).
  all: right.
  all: lazymatch goal with
       | |- context [put_transaction _ ?t _] => exists t
       end.
  all: split; [exact Hfresh|]; repeat split.
Qed.


(** *** The status state machine *)








(** *** Expiry on read *)




(** *** Frames *)

(** C6. A verify call that fails with NotFound, SignatureMismatch,
    AlreadyProcessed or the missing-field error returns the state it was
    given: every intent, with all its fields, and every order is as before,
    and no write is issued. These four are the failures of every failing
    call but one: the 500 that the handler answers when the lookup of the
    linked order throws, which comes after the intent was saved. *)
Theorem failed_verify_changes_nothing cfg now req st f :
  reply (verifyPayment cfg now req st) = Fail f ->
  f <> InternalFailure "Failed to verify payment" ->
  (f = TidAndStatusRequired \/ f = NotFound \/ f = SignatureMismatch \/
   exists current, f = AlreadyProcessed current) /\
  after (verifyPayment cfg now req st) = st /\
  writes (verifyPayment cfg now req st) = [] /\
  (forall tid,
      transactions (after (verifyPayment cfg now req st)) !! tid
      = transactions st !! tid) /\
  orders (after (verifyPayment cfg now req st)) = orders st.
Proof.
  intros Hf Hne.
  destruct (verify_failure_frame cfg now req st f Hf Hne) as [Hout Hwhich].
  rewrite Hout. simpl. auto.
Qed.

(** A refused verify call of the sample run, for
    [failed_verify_changes_nothing]. *)
Lemma failed_verify_witness :
  reply (verifyPayment Sample.cfg 1730000200000
           (Sample.report "failed" None) Sample.paid)
  = Fail (AlreadyProcessed "success") /\
  after (verifyPayment Sample.cfg 1730000200000
           (Sample.report "failed" None) Sample.paid)
  = Sample.paid.
Proof.
  assert (reply (verifyPayment Sample.cfg 1730000200000
                   (Sample.report "failed" None) Sample.paid)
          = Fail (AlreadyProcessed "success")) as Hf
    by (vm_compute; reflexivity).
  split; [exact Hf|].
  exact (proj1 (proj2 (failed_verify_changes_nothing _ _ _ _ _ Hf
                         ltac:(discriminate)))).
Defined.

(** C10. A status read changes at most the status of the intent it reads:
    every other field of every stored intent is as before, and so is every
    order. When the intent read is not pending, or is pending and its
    expiry has not passed, the state is as before and no write is issued. *)
Theorem status_read_frame now tid0 st tid t :
  transactions st !! tid = Some t ->
  (exists t',
      transactions (after (checkPaymentStatus now tid0 st)) !! tid = Some t' /\
      same_but_status t t' /\
      (tid0 <> tid -> t' = t)) /\
  orders (after (checkPaymentStatus now tid0 st)) = orders st /\
  (tid0 = tid ->
   status t <> "pending" \/ now <= expires t ->
   after (checkPaymentStatus now tid0 st) = st /\
   writes (checkPaymentStatus now tid0 st) = []).
Proof.
  intros Hin.
  destruct (status_effect now tid0 st) as [[Hs Hw] | (t0 & Hin0 & Hp & Hex & Hout)].
  - rewrite Hs, Hw. split; [|auto].
    exists t. split; [exact Hin|]. split; [apply same_but_status_refl | auto].
  - rewrite Hout. simpl. split; [|split; [reflexivity|]].
    + destruct (decide (tid0 = tid)) as [->|Hd].
      * assert (t0 = t) as -> by congruence.
        exists (set_status "expired" t). rewrite lookup_insert_eq.
        split; [reflexivity|]. split; [apply set_status_same_but_status|].
        intros Hd. contradiction.
      * exists t. rewrite lookup_insert_ne by assumption.
        split; [exact Hin|]. split; [apply same_but_status_refl | auto].
    + intros -> [Hnp | Hnot].
      * congruence.
      * assert (t0 = t) as -> by congruence. lia.
Qed.

(** The paid intent of the sample run, read late, for [status_read_frame]. *)
Lemma status_read_frame_witness :
  after (checkPaymentStatus Sample.late Sample.the_tid Sample.paid) = Sample.paid /\
  writes (checkPaymentStatus Sample.late Sample.the_tid Sample.paid) = [].
Proof.
  assert (transactions Sample.paid !! Sample.the_tid
          = Some (set_completedAt 1730000100000
                    (set_status "success" Sample.the_intent))) as Hin
    by (vm_compute; reflexivity).
  destruct (status_read_frame Sample.late Sample.the_tid Sample.paid
              Sample.the_tid _ Hin) as (_ & _ & Hframe).
  apply Hframe; [reflexivity|]. left. discriminate.
Defined.

(** *** Order reconciliation *)

(** C5. A verify call that succeeds on a pending intent whose orderId is
    set and names an existing order (the store casts the id to the key of
    a stored order) stores the reported status and the completion time in
    the intent. Reported success sets the order's paymentStatus to paid
    and its status to confirmed; reported failed sets them to failed and
    cancelled; any other reported value leaves every order as it was. The
    other fields of the order, and every other order, are untouched. *)
Theorem order_reconciliation cfg now req st tid t oid key order :
  q_tid req = Some tid ->
  transactions st !! tid = Some t ->
  succeeded (reply (verifyPayment cfg now req st)) = true ->
  orderId t = Some oid ->
  oid <> "" ->
  order_cast cfg oid = Some key ->
  orders st !! key = Some order ->
  exists reported t',
    q_status req = Some reported /\
    status t = "pending" /\
    transactions (after (verifyPayment cfg now req st)) !! tid = Some t' /\
    status t' = reported /\ completedAt t' = Some now /\
    same_but_outcome t t' /\
    (reported = "success" ->
     orders (after (verifyPayment cfg now req st)) !! key
     = Some {| paymentStatus := "paid"; orderStatus := "confirmed";
               orderDetails := orderDetails order |}) /\
    (reported = "failed" ->
     orders (after (verifyPayment cfg now req st)) !! key
     = Some {| paymentStatus := "failed"; orderStatus := "cancelled";
               orderDetails := orderDetails order |}) /\
    (reported <> "success" -> reported <> "failed" ->
     orders (after (verifyPayment cfg now req st)) = orders st) /\
    (forall key', key' <> key ->
       orders (after (verifyPayment cfg now req st)) !! key' = orders st !! key').
Proof.
  intros Htid Hin Hok Hoid Hne Hcast Hord. revert Hok. unfold verifyPayment.
  destruct (given (q_tid req)) eqn:Hgt; simpl; [|discriminate].
  destruct (given (q_status req)) eqn:Hgs; simpl; [|discriminate].
  destruct (given_Some _ Hgs) as (reported & Hrep & _).
  rewrite Htid, Hrep. simpl. rewrite Hin.
  verify_cases Hsig Hst; [discriminate| |discriminate].
  intros _. apply String.eqb_eq in Hst.
  assert (linked_order (set_completedAt now (set_status reported t)) = Some oid)
    as Hlink.
  { unfold linked_order, or_null. simpl. rewrite Hoid. simpl.
    apply String.eqb_neq in Hne. now rewrite Hne. }
  rewrite Hlink, Hcast. simpl. rewrite Hord. simpl.
  exists reported, (set_completedAt now (set_status reported t)).
  split; [reflexivity|]. split; [exact Hst|].
  split; [apply lookup_insert_eq|].
  split; [reflexivity|]. split; [reflexivity|].
  split; [repeat split|].
  unfold reconcile. split; [|split; [|split]].
  - intros ->. simpl. apply lookup_insert_eq.
  - intros ->. simpl. apply lookup_insert_eq.
  - intros H1 H2. apply String.eqb_neq in H1, H2. rewrite H1, H2.
    now apply insert_id.
  - intros key' Hd. now apply lookup_insert_ne.
Qed.

Lemma demo_linked_intent :
  exists t,
    transactions Demo.linked !! Sample.the_tid = Some t /\
    orderId t = Some Demo.order_id.
Proof. vm_compute. eexists. split; reflexivity. Qed.

(** A verification by the shop of the payment linked to the sample order,
    whose id the request wrote in upper case, for [order_reconciliation]. *)
Lemma order_reconciliation_witness :
  Orders.getOrderById Demo.order_id Demo.linked = Orders.Ok200 Sample.order /\
  Orders.getOrderById Demo.order_id
    (after (verifyPayment Sample.cfg 1730000100000
              (Sample.report "success" None) Demo.linked))
  = Orders.Ok200 {| paymentStatus := "paid"; orderStatus := "confirmed";
                    orderDetails := orderDetails Sample.order |}.
Proof.
  split; [vm_compute; reflexivity|].
  destruct demo_linked_intent as (t & Hin & Hoid).
  assert (succeeded (reply (verifyPayment Sample.cfg 1730000100000
                              (Sample.report "success" None) Demo.linked))
          = true) as Hok by (vm_compute; reflexivity).
  destruct (order_reconciliation Sample.cfg 1730000100000
              (Sample.report "success" None) Demo.linked Sample.the_tid
              t Demo.order_id (Orders.order_key Demo.order_id) Sample.order
              eq_refl Hin Hok Hoid ltac:(discriminate)
              ltac:(vm_compute; reflexivity) ltac:(vm_compute; reflexivity))
    as (reported & t' & Hrep & _ & _ & _ & _ & _ & Hpaid & _).
  assert (reported = "success") as Hs by (simpl in Hrep; congruence).
  unfold Orders.getOrderById.
  change (Orders.no_id Demo.order_id) with false.
  change (Orders.is_object_id Demo.order_id) with true.
  simpl negb. cbv iota. rewrite (Hpaid Hs). reflexivity.
Defined.

(** *** Signatures *)

(** In every state a deployment can reach, a stored signature is the MAC of
    the stored payload. *)
Lemma stored_signature cfg st :
  reachable cfg st ->
  forall tid t,
    transactions st !! tid = Some t ->
    signature t = createSignature cfg (payload t).
Proof.
  induction 1 as [os | st st' Hreach IH Hstep]; intros tid t Hin.
  { simpl in Hin. rewrite lookup_empty in Hin. discriminate. }
  destruct Hstep as [o req st | now tid0 st | now req st | os st].
  - destruct (create_effect cfg o req st) as [Hs | (t0 & _ & _ & Hsig & Hs)];
      rewrite Hs in Hin; [now apply (IH tid)|].
    simpl in Hin. destruct (decide (Payment.tid t0 = tid)) as [<-|Hd].
    + rewrite lookup_insert_eq in Hin. congruence.
    + rewrite lookup_insert_ne in Hin by assumption. now apply (IH tid).
  - destruct (status_effect now tid0 st) as [[Hs _] | (t0 & Hin0 & _ & _ & Hout)].
    + rewrite Hs in Hin. now apply (IH tid).
    + rewrite Hout in Hin. simpl in Hin.
      destruct (decide (tid0 = tid)) as [->|Hd].
      * rewrite lookup_insert_eq in Hin. injection Hin as <-.
        exact (IH tid t0 Hin0).
      * rewrite lookup_insert_ne in Hin by assumption. now apply (IH tid).
  - destruct (verify_effect cfg now req st) as
      [(f & Hf & _) | (tid0 & reported & t0 & _ & _ & _ & Hin0 & _ & _ & _ & Htr)].
    + rewrite Hf in Hin. now apply (IH tid).
    + rewrite Htr in Hin. destruct (decide (tid0 = tid)) as [->|Hd].
      * rewrite lookup_insert_eq in Hin. injection Hin as <-.
        exact (IH tid t0 Hin0).
      * rewrite lookup_insert_ne in Hin by assumption. now apply (IH tid).
  - now apply (IH tid).
Qed.

(** C4. Every intent of a reachable state carries the MAC of its payload
    under the configured secret, so recomputing the MAC over the stored
    payload gives the stored signature, and a verify call that supplies the
    stored signature is never answered SignatureMismatch. A successful
    creation returns and stores that MAC. *)
Theorem signature_round_trip cfg st tid t :
  reachable cfg st ->
  transactions st !! tid = Some t ->
  createSignature cfg (payload t) = signature t /\
  (forall now req,
      q_tid req = Some tid ->
      q_signature req = Some (signature t) ->
      reply (verifyPayment cfg now req st) <> Fail SignatureMismatch) /\
  (forall o req resp,
      reply (createPayment cfg o req st) = Json200 resp ->
      sig resp = createSignature cfg (r_payload resp) /\
      exists t',
        transactions (after (createPayment cfg o req st)) !! r_tid resp = Some t' /\
        payload t' = r_payload resp /\ signature t' = sig resp).
Proof.
  intros Hreach Hin.
  pose proof (stored_signature cfg st Hreach tid t Hin) as Hsig.
  split; [now symmetry|]. split.
  - intros now req Htid Hq. unfold verifyPayment.
    destruct (negb (given (q_tid req)) || negb (given (q_status req)));
      [discriminate|].
    rewrite Htid. simpl. rewrite Hin, Hq. simpl.
    rewrite <- Hsig, String.eqb_refl, andb_false_r.
    destruct (negb _); [discriminate|].
    destruct (linked_order _) as [oid|]; [|discriminate].
    destruct (order_cast cfg oid) as [key|]; [|discriminate].
    destruct (orders _ !! key); discriminate.
  - intros o req resp. unfold createPayment, save_new.
    destruct (negb (Js.truthy (c_amount req)) || negb (Js.truthy (c_payType req)));
      [discriminate|].
    destruct (c_payType req) as [| |b|x|payType|l|l]; try discriminate.
    destruct (negb _); [discriminate|].
    destruct (String.eqb _ "phonepe"); cbv beta iota zeta;
      (destruct (transactions st !! Payment.tid _); cbv iota; [discriminate|]);
      intros [= <-]; (split; [reflexivity|]);
      eexists; (split; [apply lookup_insert_eq|]); split; reflexivity.
Qed.

(** The intent created in the sample run, for [signature_round_trip]. *)
Lemma signature_round_trip_witness :
  reachable Sample.cfg Sample.created /\
  transactions Sample.created !! Sample.the_tid = Some Sample.the_intent /\
  createSignature Sample.cfg (payload Sample.the_intent)
  = signature Sample.the_intent.
Proof.
  assert (reachable Sample.cfg Sample.created) as Hreach.
  { apply (reach_step _ Sample.start); [apply reach_start | apply step_create]. }
  assert (transactions Sample.created !! Sample.the_tid = Some Sample.the_intent)
    as Hin by (vm_compute; reflexivity).
  split; [exact Hreach|]. split; [exact Hin|].
  exact (proj1 (signature_round_trip _ _ _ _ Hreach Hin)).
Defined.

(** *** Validation of a creation request *)



(** *** Deep links *)

Lemma append_assoc (a b c : string) : (a +:+ b) +:+ c = a +:+ (b +:+ c).
Proof.
  induction a as [|x a IH]; [reflexivity|].
  change (String x ((a +:+ b) +:+ c) = String x (a +:+ (b +:+ c))).
  now f_equal.
Qed.

(** The Paytm link, written out. *)
Lemma paytm_link (upi note : string) (paymentAmount : float) :
  "paytmmp://cash_wallet?"
  +:+ Js.URLSearchParams_toString (paytm_queryParams upi note paymentAmount)
  = "paytmmp://cash_wallet?pa=" +:+ Js.form_urlencode upi
    +:+ "&am=" +:+ Js.form_urlencode (Js.Number_toString paymentAmount)
    +:+ "&tn=" +:+ Js.form_urlencode note
    +:+ "&pn=" +:+ Js.form_urlencode upi
    +:+ "&mc=&cu=INR&url=&mode=&purpose=&orgid=&sign=&featuretype=money_transfer".
Proof.
  unfold Js.URLSearchParams_toString, paytm_queryParams.
  cbn [map Js.join fst snd].
  change (Js.form_urlencode "pa") with "pa".
  change (Js.form_urlencode "am") with "am".
  change (Js.form_urlencode "tn") with "tn".
  change (Js.form_urlencode "pn") with "pn".
  change (Js.form_urlencode "mc") with "mc".
  change (Js.form_urlencode "cu") with "cu".
  change (Js.form_urlencode "url") with "url".
  change (Js.form_urlencode "mode") with "mode".
  change (Js.form_urlencode "purpose") with "purpose".
  change (Js.form_urlencode "orgid") with "orgid".
  change (Js.form_urlencode "sign") with "sign".
  change (Js.form_urlencode "featuretype") with "featuretype".
  change (Js.form_urlencode "money_transfer") with "money_transfer".
  change (Js.form_urlencode "INR") with "INR".
  change (Js.form_urlencode "") with "".
  rewrite !append_assoc. reflexivity.
Qed.

(** C8, counterexample. For the handle mstandwafuelcentre@sbi and the
    amount 50 the Paytm link carries the handle form-urlencoded, with its
    at sign written %40, so it is not the link that has the handle itself
    after pa= and pn=. *)
Lemma deep_link_counterexample :
  redirect_url <$> body_of (reply (createPayment Sample.cfg Sample.oracle
                                     Sample.paytm_request Sample.start))
  = Some ("paytmmp://cash_wallet?pa=mstandwafuelcentre%40sbi&am=50&tn=s437"
          +:+ "&pn=mstandwafuelcentre%40sbi&mc=&cu=INR&url=&mode=&purpose="
          +:+ "&orgid=&sign=&featuretype=money_transfer") /\
  redirect_url <$> body_of (reply (createPayment Sample.cfg Sample.oracle
                                     Sample.paytm_request Sample.start))
  <> Some ("paytmmp://cash_wallet?pa=" +:+ MERCHANT_UPI Sample.cfg
           +:+ "&am=50&tn=" +:+ generateNote Sample.oracle
           +:+ "&pn=" +:+ MERCHANT_UPI Sample.cfg
           +:+ "&mc=&cu=INR&url=&mode=&purpose=&orgid=&sign="
           +:+ "&featuretype=money_transfer").
Proof. vm_compute. split; [reflexivity | discriminate]. Qed.

(** C8, amended. A successful creation returns, for phonepe, the link
    phonepe://native?data=<payload>&id=p2ppayment whose payload is the
    returned base64 payload passed through encodeURIComponent; and for
    paytm the link paytmmp://cash_wallet? followed by pa, am, tn, pn, mc,
    cu, url, mode, purpose, orgid, sign and featuretype in this order,
    where the handle (pa and pn), the decimal string of the parsed amount
    (am) and the note (tn) are form-urlencoded, cu is INR, featuretype is
    money_transfer and the other values are empty. *)
Theorem deep_link_format cfg o req st resp :
  reply (createPayment cfg o req st) = Json200 resp ->
  exists s,
    c_payType req = Js.Str s /\
    (Js.trim (Js.toLowerCase s) = "phonepe" \/
     Js.trim (Js.toLowerCase s) = "paytm") /\
    (Js.trim (Js.toLowerCase s) = "phonepe" ->
     r_payload resp
     = Js.base64 (Js.stringify (phonepe_payloadJson (MERCHANT_UPI cfg)
                                  (generateNote o) (Js.parseFloat (c_amount req)))) /\
     redirect_url resp
     = "phonepe://native?data=" +:+ Js.encodeURIComponent (r_payload resp)
       +:+ "&id=p2ppayment") /\
    (Js.trim (Js.toLowerCase s) = "paytm" ->
     redirect_url resp
     = "paytmmp://cash_wallet?pa=" +:+ Js.form_urlencode (MERCHANT_UPI cfg)
       +:+ "&am="
       +:+ Js.form_urlencode (Js.Number_toString (Js.parseFloat (c_amount req)))
       +:+ "&tn=" +:+ Js.form_urlencode (generateNote o)
       +:+ "&pn=" +:+ Js.form_urlencode (MERCHANT_UPI cfg)
       +:+ "&mc=&cu=INR&url=&mode=&purpose=&orgid=&sign=&featuretype=money_transfer").
Proof.
  unfold createPayment, save_new.
  destruct (negb (Js.truthy (c_amount req)) || negb (Js.truthy (c_payType req)));
    [discriminate|].
  destruct (c_payType req) as [| |b|x|payType|l|l]; try discriminate.
  destruct (String.eqb (Js.trim (Js.toLowerCase payType)) "phonepe") eqn:Hph.
  - simpl negb. cbv beta iota zeta.
    destruct (transactions st !! Payment.tid _); cbv iota; [discriminate|].
    intros [= <-]. exists payType. apply String.eqb_eq in Hph.
    split; [reflexivity|]. split; [now left|]. split.
    + intros _. split; reflexivity.
    + intros Hpt. rewrite Hph in Hpt. discriminate.
  - destruct (String.eqb (Js.trim (Js.toLowerCase payType)) "paytm") eqn:Hpt;
      [|discriminate].
    simpl negb. cbv beta iota zeta.
    destruct (transactions st !! Payment.tid _); cbv iota; [discriminate|].
    intros [= <-]. exists payType.
    apply String.eqb_neq in Hph. apply String.eqb_eq in Hpt.
    split; [reflexivity|]. split; [now right|]. split.
    + intros H. contradiction.
    + intros _. cbn [redirect_url]. apply paytm_link.
Qed.

(** The Paytm creation of the sample run, for [deep_link_format]. *)
Lemma deep_link_format_witness :
  exists resp,
    reply (createPayment Sample.cfg Sample.oracle Sample.paytm_request Sample.start)
    = Json200 resp /\
    exists s,
      c_payType Sample.paytm_request = Js.Str s /\
      (Js.trim (Js.toLowerCase s) = "phonepe" \/
       Js.trim (Js.toLowerCase s) = "paytm").
Proof.
  destruct (reply (createPayment Sample.cfg Sample.oracle Sample.paytm_request
                     Sample.start)) as [resp|f] eqn:Hr.
  - exists resp. split; [reflexivity|].
    destruct (deep_link_format _ _ _ _ _ Hr) as (s & Hs & Hwhich & _).
    exists s. split; [exact Hs | exact Hwhich].
  - vm_compute in Hr. discriminate.
Defined.

(** *** Minor units *)

(** C9, at the failing input. The JSON number 0.29 is the binary64 value
    nearest to 29/100, and [parseFloat] returns it; the mathematical floor
    of 0.29 * 100 is 29, but the product of the two binary64 values is
    below 29, so the PhonePe payload of a 0.29 payment carries
    initialAmount 28. *)
Theorem paise_of_0_29 :
  Js.nearest_float 29 100 = Sample.amount_0_29 /\
  Js.parseFloat (c_amount Sample.paise_request) = Sample.amount_0_29 /\
  Qfloor ((29 # 100) * 100) = 29 /\
  Js.Math_floor (Js.parseFloat (c_amount Sample.paise_request) * 100)%float
  = 28%float /\
  r_payload <$> body_of (reply (createPayment Sample.cfg Sample.oracle
                                  Sample.paise_request Sample.start))
  = Some (Js.base64 (Js.stringify
            (Js.Obj [ ("contact",
                       Js.Obj [ ("cbsName", Js.Str ""); ("nickName", Js.Str "");
                                ("vpa", Js.Str "mstandwafuelcentre@sbi");
                                ("type", Js.Str "VPA") ]);
                      ("p2pPaymentCheckoutParams",
                       Js.Obj [ ("note", Js.Str "s437");
                                ("isByDefaultKnownContact", Js.Bool true);
                                ("initialAmount", Js.Num 28);
                                ("currency", Js.Str "INR");
                                ("checkoutType", Js.Str "DEFAULT");
                                ("transactionContext", Js.Str "p2p") ]) ]))).
Proof. vm_compute. repeat split. Qed.

(* ===================================================================== *)
(** ** Further properties of the payment controller *)
(* ===================================================================== *)

(** *** What a successful creation stores and returns *)

Lemma create_success cfg o req st resp :
  reply (createPayment cfg o req st) = Json200 resp ->
  exists s t,
    c_payType req = Js.Str s /\
    createPayment cfg o req st
    = (Json200 resp, put_transaction (r_tid resp) t st,
       [SaveTransaction (r_tid resp)]) /\
    transactions st !! r_tid resp = None /\
    r_tid resp = generateTransactionId o /\
    r_expires resp = expires_clock o / 1000 + 600 /\
    sig resp = createSignature cfg (r_payload resp) /\
    r_amount resp = Js.Number_toString (amount t) /\
    tid t = r_tid resp /\
    userId t = or_null (c_userId req) /\
    orderId t = or_null (c_orderId req) /\
    amount t = Js.parseFloat (c_amount req) /\
    payType t = Js.trim (Js.toLowerCase s) /\
    supported (payType t) = true /\
    upi t = MERCHANT_UPI cfg /\
    status t = "pending" /\
    payload t = r_payload resp /\
    signature t = sig resp /\
    redirectUrl t = redirect_url resp /\
    note t = generateNote o /\
    expires t = r_expires resp * 1000 /\
    createdAt t = save_clock o /\
    completedAt t = None.
Proof.
  unfold createPayment, save_new.
  destruct (negb (Js.truthy (c_amount req)) || negb (Js.truthy (c_payType req)));
    [discriminate|].
  destruct (c_payType req) as [| |b|x|payType|l|l]; try discriminate.
  fold (supported (Js.trim (Js.toLowerCase payType))).
  destruct (supported (Js.trim (Js.toLowerCase payType))) eqn:Hs;
    [|discriminate].
  simpl negb. cbv iota.
  destruct (String.eqb _ "phonepe"); cbv beta iota zeta;
    (destruct (transactions st !! Payment.tid _) eqn:Hfresh; cbv iota;
     [discriminate|]);
    intros [= <-]; exists payType;
    lazymatch goal with
    | |- context [put_transaction _ ?t _] => exists t
    end;
    repeat (split; [first [reflexivity | exact Hfresh | exact Hs]|]);
    reflexivity.
Qed.

Lemma create_failure_frame cfg o req st f :
  reply (createPayment cfg o req st) = Fail f ->
  createPayment cfg o req st = (Fail f, st, []).
Proof.
  unfold createPayment, save_new.
  destruct (negb (Js.truthy (c_amount req)) || negb (Js.truthy (c_payType req)));
    [now intros [= ->]|].
  destruct (c_payType req) as [| |b|x|payType|l|l]; try now intros [= ->].
  destruct (negb _); [now intros [= ->]|].
  destruct (String.eqb _ "phonepe"); cbv beta iota zeta;
    (destruct (transactions st !! Payment.tid _); cbv iota;
     [now intros [= ->] | discriminate]).
Qed.

Lemma generated_tid_not_empty o : generateTransactionId o <> "".
Proof. unfold generateTransactionId. discriminate. Qed.

Lemma sample_created :
  transactions Sample.created !! Sample.the_tid = Some Sample.the_intent.
Proof. vm_compute. reflexivity. Qed.

Lemma sample_phonepe_reply :
  exists resp,
    reply (createPayment Sample.cfg Sample.oracle Sample.phonepe_request
             Sample.start) = Json200 resp.
Proof. vm_compute. eexists. reflexivity. Qed.

Lemma sample_paytm_reply :
  exists resp,
    reply (createPayment Sample.cfg Sample.oracle Sample.paytm_request
             Sample.start) = Json200 resp.
Proof. vm_compute. eexists. reflexivity. Qed.

(** The outcome of [verifyPayment] on a pending intent, for a request that
    passes the field and signature checks. *)
Lemma verify_pending_outcome cfg now req st tid t reported :
  transactions st !! tid = Some t ->
  status t = "pending" ->
  q_tid req = Some tid ->
  q_status req = Some reported ->
  well_signed cfg req t ->
  let t' := set_completedAt now (set_status reported t) in
  let st1 := put_transaction tid t' st in
  let body := {| success := true; message := "Payment " +:+ reported;
                 v_tid := Payment.tid t; v_status := reported;
                 v_amount := amount t |} in
  verifyPayment cfg now req st
  = match linked_order t with
    | Some oid =>
        match order_cast cfg oid with
        | Some key =>
            match orders st !! key with
            | Some order =>
                (Json200 body, put_order key (reconcile reported order) st1,
                 [SaveTransaction tid; SaveOrder key])
            | None => (Json200 body, st1, [SaveTransaction tid])
            end
        | None =>
            (Fail (InternalFailure "Failed to verify payment"), st1,
             [SaveTransaction tid])
        end
    | None => (Json200 body, st1, [SaveTransaction tid])
    end.
Proof.
  intros Hin Hp Htid Hrep (Hgt & Hgs & Hsig) t' st1 body.
  unfold verifyPayment. rewrite Hgt, Hgs. simpl.
  rewrite Htid, Hrep. simpl. rewrite Hin.
  assert (given (q_signature req)
          && negb (String.eqb (default "" (q_signature req))
                              (createSignature cfg (payload t))) = false) as ->.
  { destruct Hsig as [-> | ->]; [reflexivity|].
    simpl. rewrite String.eqb_refl. apply andb_false_r. }
  rewrite Hp. simpl.
  change (linked_order (set_completedAt now (set_status reported t)))
    with (linked_order t).
  destruct (linked_order t) as [oid|]; [|reflexivity].
  destruct (order_cast cfg oid) as [key|]; [|reflexivity].
  destruct (orders st !! key); reflexivity.
Qed.

Lemma verify_pending_transactions cfg now req st tid t reported :
  transactions st !! tid = Some t ->
  status t = "pending" ->
  q_tid req = Some tid ->
  q_status req = Some reported ->
  well_signed cfg req t ->
  transactions (after (verifyPayment cfg now req st))
  = <[tid := set_completedAt now (set_status reported t)]> (transactions st).
Proof.
  intros Hin Hp Htid Hrep Hws.
  rewrite (verify_pending_outcome cfg now req st tid t reported Hin Hp Htid Hrep Hws).
  destruct (linked_order t) as [oid|]; [|reflexivity].
  destruct (order_cast cfg oid) as [key|]; [|reflexivity].
  destruct (orders st !! key); reflexivity.
Qed.

Lemma demo_stray_intent :
  exists t,
    transactions Demo.stray !! Sample.the_tid = Some t /\
    status t = "pending" /\ linked_order t = Some "o1".
Proof. vm_compute. eexists. repeat split. Qed.

Lemma expiry_of_bounds c :
  c + 599000 < Observe.expiry_of c <= c + 600000.
Proof.
  unfold Observe.expiry_of.
  pose proof (Z.div_mod c 1000 ltac:(lia)).
  pose proof (Z.mod_pos_bound c 1000 ltac:(lia)). lia.
Qed.

(** *** Creation, then a status read or a verification *)

(** X1. After a successful createPayment, a status read of the returned
    transaction id at any time up to the returned expiry (in milliseconds)
    answers 200 with status pending, the parsed amount, the normalised
    payment type, the creation time, no completion time and the merchant
    handle that getMerchantUPI returns; it changes nothing and writes
    nothing. *)
Theorem created_intent_reads_pending cfg o req st resp now :
  reply (createPayment cfg o req st) = Json200 resp ->
  now <= r_expires resp * 1000 ->
  exists s,
    c_payType req = Js.Str s /\
    checkPaymentStatus now (r_tid resp) (after (createPayment cfg o req st))
    = (Json200 {| s_tid := r_tid resp; s_status := "pending";
                  s_amount := Js.parseFloat (c_amount req);
                  s_payType := Js.trim (Js.toLowerCase s);
                  s_upi := MERCHANT_UPI cfg;
                  s_createdAt := save_clock o;
                  s_completedAt := None |},
       after (createPayment cfg o req st), []) /\
    Merchant.getMerchantUPI cfg = Json200 (MERCHANT_UPI cfg).
Proof.
  intros Hr Hnow.
  created_facts (create_success cfg o req st resp Hr).
  exists s. split; [exact Hs|]. split; [|reflexivity].
  rewrite Hout. simpl. unfold checkPaymentStatus. simpl.
  assert (String.eqb (r_tid resp) "" = false) as ->.
  { apply String.eqb_neq. rewrite Htid. apply generated_tid_not_empty. }
  rewrite lookup_insert_eq, Hst. simpl.
  assert ((expires t <? now) = false) as -> by (apply Z.ltb_ge; lia).
  unfold view. rewrite Ht, Hst, Ham, Hpt, Hupi, Hcr, Hco. reflexivity.
Qed.

Lemma created_intent_reads_pending_witness :
  exists resp,
    reply (createPayment Sample.cfg Sample.oracle Sample.phonepe_request
             Sample.start) = Json200 resp /\
    writes (checkPaymentStatus 1730000300000 (r_tid resp) Sample.created) = [].
Proof.
  destruct sample_phonepe_reply as [resp Hr].
  exists resp. split; [exact Hr|].
  assert (1730000300000 <= r_expires resp * 1000) as Hnow.
  { created_facts (create_success _ _ _ _ _ Hr). rewrite Hre.
    vm_compute. discriminate. }
  destruct (created_intent_reads_pending _ _ _ _ _ 1730000300000 Hr Hnow)
    as (s & _ & Hout & _).
  unfold Sample.created. rewrite Hout. reflexivity.
Defined.

(** X2. The expiry stored by a successful createPayment is the creation
    clock truncated to whole seconds plus 600 s, so it lies more than
    599 s and at most 600 s after the creation. A status read up to
    599.001 s after the creation answers pending; a status read more than
    600 s after it answers expired and writes the intent once. *)
Theorem expiry_window cfg o req st resp :
  reply (createPayment cfg o req st) = Json200 resp ->
  r_expires resp * 1000 = Observe.expiry_of (expires_clock o) /\
  expires_clock o + 599000 < r_expires resp * 1000 <= expires_clock o + 600000 /\
  (forall now,
      now <= expires_clock o + 599001 ->
      exists v,
        reply (checkPaymentStatus now (r_tid resp)
                 (after (createPayment cfg o req st))) = Json200 v /\
        s_status v = "pending") /\
  (forall now,
      expires_clock o + 600000 < now ->
      exists v,
        reply (checkPaymentStatus now (r_tid resp)
                 (after (createPayment cfg o req st))) = Json200 v /\
        s_status v = "expired" /\
        writes (checkPaymentStatus now (r_tid resp)
                  (after (createPayment cfg o req st)))
        = [SaveTransaction (r_tid resp)]).
Proof.
  intros Hr.
  created_facts (create_success cfg o req st resp Hr).
  assert (r_expires resp * 1000 = Observe.expiry_of (expires_clock o)) as Hw
    by (rewrite Hre; reflexivity).
  pose proof (expiry_of_bounds (expires_clock o)) as Hb.
  assert (String.eqb (r_tid resp) "" = false) as Hne.
  { apply String.eqb_neq. rewrite Htid. apply generated_tid_not_empty. }
  split; [exact Hw|]. split; [lia|]. split.
  - intros now Hnow. rewrite Hout. simpl. unfold checkPaymentStatus. simpl.
    rewrite Hne, lookup_insert_eq, Hst. simpl.
    assert ((expires t <? now) = false) as -> by (apply Z.ltb_ge; lia).
    eexists. split; [reflexivity|]. exact Hst.
  - intros now Hnow. rewrite Hout. simpl. unfold checkPaymentStatus. simpl.
    rewrite Hne, lookup_insert_eq, Hst. simpl.
    assert ((expires t <? now) = true) as -> by (apply Z.ltb_lt; lia).
    eexists. split; [reflexivity|]. split; reflexivity.
Qed.

Lemma expiry_window_witness :
  exists resp,
    reply (createPayment Sample.cfg Sample.oracle Sample.phonepe_request
             Sample.start) = Json200 resp /\
    r_expires resp * 1000 = 1730000600000 /\
    exists v,
      reply (checkPaymentStatus Sample.late (r_tid resp) Sample.created)
      = Json200 v /\
      s_status v = "expired".
Proof.
  destruct sample_phonepe_reply as [resp Hr].
  exists resp. split; [exact Hr|].
  destruct (expiry_window _ _ _ _ _ Hr) as (Hw & _ & _ & Hlate).
  split; [rewrite Hw; reflexivity|].
  destruct (Hlate Sample.late ltac:(reflexivity)) as (v & Hv & Hs & _).
  exists v. split; [exact Hv | exact Hs].
Defined.

(** X3. After a successful createPayment, a verification of the returned
    transaction id with a non-empty reported status, and with either no
    signature or the signature createPayment returned, stores the
    reported status and the time of the call as completion time in the
    intent at any time, and changes no other field of it. The call
    answers 200 with the transaction id, the reported status and the
    parsed amount when the request named no order or an id the store can
    cast; when the store cannot cast the id, the call answers 500, after
    the intent was saved. *)
Theorem created_intent_verifies cfg o req st resp now reported signature :
  reply (createPayment cfg o req st) = Json200 resp ->
  reported <> "" ->
  signature = None \/ signature = Some (sig resp) ->
  let st1 := after (createPayment cfg o req st) in
  let out := verifyPayment cfg now
               {| q_tid := Some (r_tid resp); q_status := Some reported;
                  q_signature := signature |} st1 in
  (exists t t',
      transactions st1 !! r_tid resp = Some t /\
      transactions (after out) !! r_tid resp = Some t' /\
      status t = "pending" /\ completedAt t = None /\
      status t' = reported /\ completedAt t' = Some now /\
      same_but_outcome t t' /\
      payload t' = r_payload resp) /\
  ((forall oid, or_null (c_orderId req) = Some oid -> order_cast cfg oid <> None) ->
   reply out
   = Json200 {| success := true; message := "Payment " +:+ reported;
                v_tid := r_tid resp; v_status := reported;
                v_amount := Js.parseFloat (c_amount req) |}) /\
  (forall oid,
      or_null (c_orderId req) = Some oid -> order_cast cfg oid = None ->
      reply out = Fail (InternalFailure "Failed to verify payment")).
Proof.
  intros Hr Hrep Hsig st1 out.
  created_facts (create_success cfg o req st resp Hr).
  assert (transactions st1 !! r_tid resp = Some t) as Hin.
  { subst st1. rewrite Hout. simpl. apply lookup_insert_eq. }
  assert (well_signed cfg {| q_tid := Some (r_tid resp); q_status := Some reported;
                             q_signature := signature |} t) as Hws.
  { unfold well_signed. simpl. split.
    - apply negb_true_iff, String.eqb_neq. rewrite Htid.
      apply generated_tid_not_empty.
    - split; [now apply negb_true_iff, String.eqb_neq|].
      destruct Hsig as [-> | ->]; [now left|]. right.
      now rewrite Hpl, Hmac. }
  pose proof (verify_pending_outcome cfg now
                {| q_tid := Some (r_tid resp); q_status := Some reported;
                   q_signature := signature |}
                st1 (r_tid resp) t reported Hin Hst eq_refl eq_refl Hws) as Hv.
  pose proof (verify_pending_transactions cfg now
                {| q_tid := Some (r_tid resp); q_status := Some reported;
                   q_signature := signature |}
                st1 (r_tid resp) t reported Hin Hst eq_refl eq_refl Hws) as Htr.
  fold out in Hv, Htr. cbv zeta in Hv.
  unfold linked_order in Hv. rewrite Hoid in Hv.
  assert (or_null (or_null (c_orderId req)) = or_null (c_orderId req)) as Hnn.
  { unfold or_null. destruct (given (c_orderId req)) eqn:Hg; [now rewrite Hg|].
    reflexivity. }
  rewrite Hnn in Hv. rewrite Ht, Ham in Hv.
  split; [|split].
  - exists t, (set_completedAt now (set_status reported t)).
    split; [exact Hin|]. split; [rewrite Htr; apply lookup_insert_eq|].
    split; [exact Hst|]. split; [exact Hco|].
    split; [reflexivity|]. split; [reflexivity|].
    split; [repeat split | exact Hpl].
  - intros Hcast. rewrite Hv.
    destruct (or_null (c_orderId req)) as [oid|]; [|reflexivity].
    destruct (order_cast cfg oid) as [key|] eqn:Hk.
    + destruct (orders st1 !! key); reflexivity.
    + exfalso. apply (Hcast oid eq_refl). exact Hk.
  - intros oid Hoid' Hcast. rewrite Hv, Hoid', Hcast. reflexivity.
Qed.

Lemma created_intent_verifies_witness :
  exists resp,
    reply (createPayment Sample.cfg Sample.oracle Sample.phonepe_request
             Sample.start) = Json200 resp /\
    reply (verifyPayment Sample.cfg 1730000100000
             {| q_tid := Some (r_tid resp); q_status := Some "success";
                q_signature := Some (sig resp) |}
             Sample.created)
    = Json200 {| success := true; message := "Payment success";
                 v_tid := r_tid resp; v_status := "success";
                 v_amount := 100 |}.
Proof.
  destruct sample_phonepe_reply as [resp Hr].
  exists resp. split; [exact Hr|].
  destruct (created_intent_verifies _ _ _ _ _ 1730000100000 "success"
              (Some (sig resp)) Hr ltac:(discriminate) (or_intror eq_refl))
    as (_ & Hok & _).
  apply Hok. intros oid [= <-]. vm_compute. discriminate.
Defined.

(** X4. verifyPayment never looks at the clock or at the stored expiry: a
    stored intent whose status is pending is updated by every request
    that names it, reports a non-empty status and carries no signature or
    the MAC of the stored payload, also after its expiry has passed. The
    intent takes the reported status and the time of the call as
    completion time, keeps its other fields, and no other intent changes.
    When the intent links no order the call answers 200 and the intent is
    the only write. When it links an id the store cannot cast, the call
    answers 500 although the intent was saved; the orders are as before.
    When the store casts the id the call answers 200, and if no order is
    stored under the key the orders are as before and the intent is the
    only write. *)
Theorem pending_intent_verifies cfg now req st tid t reported :
  transactions st !! tid = Some t ->
  status t = "pending" ->
  q_tid req = Some tid ->
  q_status req = Some reported ->
  well_signed cfg req t ->
  let out := verifyPayment cfg now req st in
  let body := {| success := true; message := "Payment " +:+ reported;
                 v_tid := Payment.tid t; v_status := reported;
                 v_amount := amount t |} in
  (exists t',
      transactions (after out) !! tid = Some t' /\
      status t' = reported /\ completedAt t' = Some now /\
      same_but_outcome t t') /\
  (forall tid', tid' <> tid ->
                transactions (after out) !! tid' = transactions st !! tid') /\
  (linked_order t = None ->
   reply out = Json200 body /\
   orders (after out) = orders st /\ writes out = [SaveTransaction tid]) /\
  (forall oid,
      linked_order t = Some oid -> order_cast cfg oid = None ->
      reply out = Fail (InternalFailure "Failed to verify payment") /\
      orders (after out) = orders st /\ writes out = [SaveTransaction tid]) /\
  (forall oid key,
      linked_order t = Some oid -> order_cast cfg oid = Some key ->
      reply out = Json200 body /\
      (orders st !! key = None ->
       orders (after out) = orders st /\ writes out = [SaveTransaction tid])).
Proof.
  intros Hin Hp Htid Hrep Hws out body.
  pose proof (verify_pending_outcome cfg now req st tid t reported
                Hin Hp Htid Hrep Hws) as Hv.
  pose proof (verify_pending_transactions cfg now req st tid t reported
                Hin Hp Htid Hrep Hws) as Htr.
  fold out in Hv, Htr. cbv zeta in Hv. fold body in Hv.
  split; [|split; [|split; [|split]]].
  - exists (set_completedAt now (set_status reported t)).
    split; [rewrite Htr; apply lookup_insert_eq|].
    split; [reflexivity|]. split; [reflexivity|]. repeat split.
  - intros tid' Hd. rewrite Htr. apply lookup_insert_ne. congruence.
  - intros Hno. rewrite Hno in Hv. rewrite Hv. auto.
  - intros oid Hl Hc. rewrite Hl, Hc in Hv. rewrite Hv. auto.
  - intros oid key Hl Hc. rewrite Hl, Hc in Hv.
    destruct (orders st !! key) as [order|] eqn:Ho; rewrite Hv.
    + split; [reflexivity | discriminate].
    + auto.
Qed.

(** The intent of the shop whose orderId is not the id of an order,
    verified after its expiry, for [pending_intent_verifies]. *)
Lemma pending_intent_verifies_witness :
  reply (verifyPayment Sample.cfg Sample.late (Sample.report "success" None)
           Demo.stray)
  = Fail (InternalFailure "Failed to verify payment") /\
  exists t',
    transactions (after (verifyPayment Sample.cfg Sample.late
                           (Sample.report "success" None) Demo.stray))
    !! Sample.the_tid = Some t' /\
    status t' = "success" /\ completedAt t' = Some Sample.late.
Proof.
  destruct demo_stray_intent as (t & Hin & Hp & Hl).
  destruct (pending_intent_verifies Sample.cfg Sample.late
              (Sample.report "success" None) Demo.stray Sample.the_tid
              t "success" Hin Hp eq_refl eq_refl
              (conj eq_refl (conj eq_refl (or_introl eq_refl))))
    as ((t' & Hin' & Hs & Hc & _) & _ & _ & Hcast & _).
  split.
  - exact (proj1 (Hcast "o1" Hl ltac:(vm_compute; reflexivity))).
  - exists t'. split; [exact Hin'|]. split; [exact Hs | exact Hc].
Defined.

(** X5. createPayment is all or nothing. A failed call leaves the state
    as it was and writes nothing. A successful call writes exactly one
    document: a new intent under the returned transaction id, which was
    not in use, with status pending, no completion time and the returned
    payload, signature, deep link, expiry and amount; the orders and the
    other intents are untouched. *)
Theorem creation_is_all_or_nothing cfg o req st :
  (forall f,
      reply (createPayment cfg o req st) = Fail f ->
      after (createPayment cfg o req st) = st /\
      writes (createPayment cfg o req st) = []) /\
  (forall resp,
      reply (createPayment cfg o req st) = Json200 resp ->
      writes (createPayment cfg o req st) = [SaveTransaction (r_tid resp)] /\
      orders (after (createPayment cfg o req st)) = orders st /\
      transactions st !! r_tid resp = None /\
      exists t,
        transactions (after (createPayment cfg o req st))
        = <[r_tid resp := t]> (transactions st) /\
        tid t = r_tid resp /\ status t = "pending" /\ completedAt t = None /\
        payload t = r_payload resp /\ signature t = sig resp /\
        redirectUrl t = redirect_url resp /\
        expires t = r_expires resp * 1000 /\
        Js.Number_toString (amount t) = r_amount resp).
Proof.
  split.
  - intros f Hf. rewrite (create_failure_frame cfg o req st f Hf). auto.
  - intros resp Hr. created_facts (create_success cfg o req st resp Hr).
    rewrite Hout. simpl.
    split; [reflexivity|]. split; [reflexivity|]. split; [exact Hfresh|].
    exists t. repeat (split; [first [reflexivity | assumption | now symmetry]|]).
    now symmetry.
Qed.

Lemma creation_is_all_or_nothing_witness :
  after (createPayment Sample.cfg Sample.oracle Sample.zero_request Sample.start)
  = Sample.start /\
  after (createPayment Sample.cfg Sample.oracle Sample.phonepe_request
           Sample.created) = Sample.created.
Proof.
  split.
  - exact (proj1 (proj1 (creation_is_all_or_nothing Sample.cfg Sample.oracle
                           Sample.zero_request Sample.start)
                    InvalidPayload ltac:(vm_compute; reflexivity))).
  - destruct (reply (createPayment Sample.cfg Sample.oracle
                       Sample.phonepe_request Sample.created)) as [resp|f] eqn:Hr.
    + vm_compute in Hr. discriminate.
    + exact (proj1 (proj1 (creation_is_all_or_nothing _ _ _ _) f Hr)).
Defined.

(** *** An invariant of the stored intents *)

Lemma well_formed_set_status key t s :
  s <> "" ->
  (completedAt t = None -> s = "pending" \/ s = "expired") ->
  Observe.well_formed key t -> Observe.well_formed key (set_status s t).
Proof.
  intros Hs Hc (H1 & H2 & H3 & H4 & H5 & H6 & H7).
  unfold Observe.well_formed. simpl. auto 10.
Qed.

(** X6. In every state the three handlers can reach from an empty
    transaction collection, every stored intent is filed under its own
    transaction id, which starts with cw; its payment type is phonepe or
    paytm; its status is not empty; its orderId is null or a non-empty
    string; its expiry is a whole number of seconds; and an intent without
    a completion time is pending or expired. *)
Theorem stored_intents_are_well_formed cfg st :
  reachable cfg st ->
  forall key t, transactions st !! key = Some t -> Observe.well_formed key t.
Proof.
  induction 1 as [os | st st' Hreach IH Hstep]; intros key t Hin.
  { simpl in Hin. rewrite lookup_empty in Hin. discriminate. }
  destruct Hstep as [o req st | now tid0 st | now req st | os st].
  - destruct (reply (createPayment cfg o req st)) as [resp|f] eqn:Hr.
    + created_facts (create_success cfg o req st resp Hr).
      rewrite Hout in Hin. simpl in Hin.
      destruct (decide (r_tid resp = key)) as [<-|Hd].
      * rewrite lookup_insert_eq in Hin. injection Hin as <-.
        unfold Observe.well_formed.
        split; [exact Ht|]. split; [rewrite Htid; reflexivity|].
        split; [exact Hsup|]. split; [rewrite Hst; discriminate|].
        split.
        { rewrite Hoid. unfold or_null.
          destruct (c_orderId req) as [x|]; simpl; [|discriminate].
          destruct (String.eqb x "") eqn:Hx; simpl; [discriminate|].
          apply String.eqb_neq in Hx. congruence. }
        split; [rewrite Hex; apply Z.mod_mul; lia|]. auto.
      * rewrite lookup_insert_ne in Hin by assumption. now apply IH.
    + rewrite (create_failure_frame cfg o req st f Hr) in Hin. now apply IH.
  - destruct (status_effect now tid0 st) as [[Hs _] | (t0 & Hin0 & _ & _ & Hout)].
    + rewrite Hs in Hin. now apply IH.
    + rewrite Hout in Hin. simpl in Hin.
      destruct (decide (tid0 = key)) as [->|Hd].
      * rewrite lookup_insert_eq in Hin. injection Hin as <-.
        apply well_formed_set_status; [discriminate | auto | now apply IH].
      * rewrite lookup_insert_ne in Hin by assumption. now apply IH.
  - destruct (verify_effect cfg now req st) as
      [(f & Hf & _) | (tid0 & reported & t0 & _ & _ & Hne & Hin0 & _ & _ & _ & Htr)].
    + rewrite Hf in Hin. now apply IH.
    + rewrite Htr in Hin. destruct (decide (tid0 = key)) as [->|Hd].
      * rewrite lookup_insert_eq in Hin. injection Hin as <-.
        destruct (IH key t0 Hin0) as (H1 & H2 & H3 & H4 & H5 & H6 & H7).
        unfold Observe.well_formed. simpl.
        repeat (split; [assumption|]). discriminate.
      * rewrite lookup_insert_ne in Hin by assumption. now apply IH.
  - now apply IH.
Qed.

Lemma stored_intents_are_well_formed_witness :
  reachable Sample.cfg Sample.paid /\
  exists t,
    transactions Sample.paid !! Sample.the_tid = Some t /\
    Observe.well_formed Sample.the_tid t.
Proof.
  assert (reachable Sample.cfg Sample.paid) as Hreach.
  { apply (reach_step _ Sample.created); [|apply step_verify].
    apply (reach_step _ Sample.start); [apply reach_start | apply step_create]. }
  split; [exact Hreach|].
  exists (set_completedAt 1730000100000 (set_status "success" Sample.the_intent)).
  assert (transactions Sample.paid !! Sample.the_tid
          = Some (set_completedAt 1730000100000
                    (set_status "success" Sample.the_intent))) as Hin
    by (vm_compute; reflexivity).
  split; [exact Hin|].
  exact (stored_intents_are_well_formed _ _ Hreach _ _ Hin).
Defined.

(** *** Status reads *)

(** X7. Status reads converge: reading the status of a transaction id at
    a time and then again at a later time gives the same reply and the
    same state as the later read alone. In particular a second read at
    the same time changes nothing more. *)
Theorem status_reads_converge now1 now2 tid st :
  now1 <= now2 ->
  reply (checkPaymentStatus now2 tid (after (checkPaymentStatus now1 tid st)))
  = reply (checkPaymentStatus now2 tid st) /\
  after (checkPaymentStatus now2 tid (after (checkPaymentStatus now1 tid st)))
  = after (checkPaymentStatus now2 tid st).
Proof.
  intros Hle.
  destruct (status_effect now1 tid st) as [[Hs _] | (t & Hin & Hp & Hex & Hout)].
  { rewrite Hs. auto. }
  assert (String.eqb tid "" = false) as He.
  { destruct (String.eqb tid "") eqn:He; [|reflexivity].
    unfold checkPaymentStatus in Hout. rewrite He in Hout. discriminate. }
  rewrite Hout. simpl. unfold checkPaymentStatus. simpl.
  rewrite He, lookup_insert_eq, Hin, Hp. simpl.
  assert ((expires t <? now2) = true) as -> by (apply Z.ltb_lt; lia).
  split; reflexivity.
Qed.

Lemma status_reads_converge_witness :
  after (checkPaymentStatus (Sample.late + 5) Sample.the_tid Sample.lapsed)
  = after (checkPaymentStatus (Sample.late + 5) Sample.the_tid Sample.created).
Proof.
  exact (proj2 (status_reads_converge Sample.late (Sample.late + 5)
                  Sample.the_tid Sample.created ltac:(vm_compute; discriminate))).
Defined.

(** X8. The answers of checkPaymentStatus: it refuses with the missing-id
    error exactly when the transaction id is empty, and with not-found
    exactly when the id is not empty and no intent is stored under it;
    every 200 reply is the view of the intent as it is stored after the
    call. *)
Theorem status_read_answers now tid st :
  (reply (checkPaymentStatus now tid st) = Fail TidRequired <-> tid = "") /\
  (reply (checkPaymentStatus now tid st) = Fail NotFound <->
   tid <> "" /\ transactions st !! tid = None) /\
  (forall v,
      reply (checkPaymentStatus now tid st) = Json200 v ->
      exists t',
        transactions (after (checkPaymentStatus now tid st)) !! tid = Some t' /\
        v = view t').
Proof.
  unfold checkPaymentStatus.
  destruct (String.eqb tid "") eqn:He.
  { apply String.eqb_eq in He. simpl. split; [tauto|].
    split; [|discriminate]. split; [discriminate | tauto]. }
  apply String.eqb_neq in He.
  destruct (transactions st !! tid) as [t|] eqn:Hin.
  2: { simpl. split; [split; [discriminate | tauto]|].
       split; [tauto | discriminate]. }
  destruct (String.eqb (status t) "pending" && (expires t <? now)); simpl.
  - split; [split; [discriminate | tauto]|].
    split; [split; [discriminate | intros [_ ?]; discriminate]|].
    intros v [= <-]. eexists. split; [apply lookup_insert_eq | reflexivity].
  - split; [split; [discriminate | tauto]|].
    split; [split; [discriminate | intros [_ ?]; discriminate]|].
    intros v [= <-]. exists t. auto.
Qed.

(** *** Documents are never added or removed by a read or a verification *)

(** X9. verifyPayment and checkPaymentStatus neither create nor delete a
    document: the set of stored transaction ids and the set of stored
    order ids are the same after the call as before it, and a status read
    leaves every order as it was. *)
Theorem documents_are_kept cfg now req tid st :
  dom (transactions (after (verifyPayment cfg now req st))) = dom (transactions st) /\
  dom (orders (after (verifyPayment cfg now req st))) = dom (orders st) /\
  dom (transactions (after (checkPaymentStatus now tid st))) = dom (transactions st) /\
  orders (after (checkPaymentStatus now tid st)) = orders st.
Proof.
  assert (forall (A : Type) (m : gmap string A) k x y,
             m !! k = Some y -> dom (<[k := x]> m) = dom m) as Hdom.
  { intros A m k x y Hk. apply dom_insert_lookup_L. eauto. }
  split; [|split; [|split]].
  - destruct (verify_effect cfg now req st) as
      [(f & Hf & _) | (tid0 & reported & t0 & _ & _ & _ & Hin0 & _ & _ & _ & Htr)].
    + now rewrite Hf.
    + rewrite Htr. now apply (Hdom _ _ _ _ t0).
  - unfold verifyPayment.
    destruct (negb _ || negb _); [reflexivity|].
    destruct (transactions st !! _) as [t|]; [|reflexivity].
    verify_cases Hsig Hst; [reflexivity| |reflexivity].
    destruct (linked_order _) as [oid|]; [|reflexivity].
    destruct (order_cast cfg oid) as [key|]; [|reflexivity].
    simpl. destruct (orders st !! key) as [order|] eqn:Ho; [|reflexivity].
    simpl. now apply (Hdom _ _ _ _ order).
  - destruct (status_effect now tid st) as [[Hs _] | (t & Hin & _ & _ & Hout)].
    + now rewrite Hs.
    + rewrite Hout. simpl. now apply (Hdom _ _ _ _ t).
  - destruct (status_effect now tid st) as [[Hs _] | (t & Hin & _ & _ & Hout)].
    + now rewrite Hs.
    + now rewrite Hout.
Qed.

(** *** The shape of a signature *)

Lemma string_length_of_chars (l : list ascii) :
  String.length (string_of_list_ascii l) = length l.
Proof. induction l as [|c l IH]; simpl; [reflexivity | now rewrite IH]. Qed.

Lemma land_255_range x : 0 <= Z.land x 255 < 256.
Proof.
  change 255 with (Z.ones 8). rewrite Z.land_ones by lia.
  apply Z.mod_pos_bound. lia.
Qed.

Lemma be_bytes_range n x : Forall (fun b => 0 <= b < 256) (Bytes.be_bytes n x).
Proof.
  induction n as [|n IH]; simpl; constructor; [apply land_255_range | exact IH].
Qed.

Lemma be_bytes_length n x : length (Bytes.be_bytes n x) = n.
Proof. induction n as [|n IH]; simpl; [reflexivity | now rewrite IH]. Qed.

Lemma blocks_length fuel h l :
  length h = 8%nat -> length (Crypto.blocks fuel h l) = 8%nat.
Proof.
  revert h l. induction fuel as [|fuel IH]; intros h l Hh; simpl; [exact Hh|].
  destruct l as [|b l]; [exact Hh|]. apply IH. reflexivity.
Qed.

Lemma sha256_length msg : length (Crypto.sha256 msg) = 32%nat.
Proof.
  unfold Crypto.sha256.
  pose proof (blocks_length (length (Crypto.pad msg)) Crypto.H256 (Crypto.pad msg)
                eq_refl) as H8.
  destruct (Crypto.blocks _ _ _) as [|a [|b [|c [|d [|e [|f [|g [|h [|]]]]]]]]];
    try discriminate.
  simpl. reflexivity.
Qed.

Lemma sha256_range msg : Forall (fun b => 0 <= b < 256) (Crypto.sha256 msg).
Proof.
  unfold Crypto.sha256.
  induction (Crypto.blocks _ _ _) as [|w ws IH]; cbn [flat_map].
  - constructor.
  - apply Forall_app. split; [apply be_bytes_range | exact IH].
Qed.

Lemma hex_length l : String.length (Bytes.hex l) = (2 * length l)%nat.
Proof.
  unfold Bytes.hex. rewrite string_length_of_chars.
  induction l as [|b l IH]; simpl; [reflexivity | rewrite IH; lia].
Qed.

Lemma nibble_cases d :
  0 <= d < 16 ->
  d = 0 \/ d = 1 \/ d = 2 \/ d = 3 \/ d = 4 \/ d = 5 \/ d = 6 \/ d = 7 \/
  d = 8 \/ d = 9 \/ d = 10 \/ d = 11 \/ d = 12 \/ d = 13 \/ d = 14 \/ d = 15.
Proof. lia. Qed.

Lemma low_nibble_range b : 0 <= Z.land b 15 < 16.
Proof.
  change 15 with (Z.ones 4). rewrite Z.land_ones by lia.
  apply Z.mod_pos_bound. lia.
Qed.

Lemma high_nibble_range b : 0 <= b < 256 -> 0 <= Z.shiftr b 4 < 16.
Proof.
  intros Hb. rewrite Z.shiftr_div_pow2 by lia. change (2 ^ 4) with 16.
  split; [apply Z.div_pos; lia | apply Z.div_lt_upper_bound; lia].
Qed.

Lemma hex_digit_lower d :
  0 <= d < 16 ->
  (fun b => Js.is_digit b || ((97 <=? b) && (b <=? 102)))
    (Bytes.byte_of_ascii (Bytes.hex_digit false d)) = true.
Proof.
  intros Hd. pose proof (nibble_cases d Hd) as H.
  repeat (destruct H as [-> | H]; [reflexivity|]). subst. reflexivity.
Qed.

Lemma hex_lower l :
  Forall (fun b => 0 <= b < 256) l -> Observe.lower_hex (Bytes.hex l) = true.
Proof.
  unfold Observe.lower_hex, Bytes.hex, Bytes.of_string.
  rewrite list_ascii_of_string_of_list_ascii.
  induction 1 as [|b l Hb Hl IH]; [reflexivity|].
  simpl. rewrite IH, andb_true_r.
  rewrite !hex_digit_lower; [reflexivity| |].
  - apply low_nibble_range.
  - now apply high_nibble_range.
Qed.

Lemma createSignature_length cfg payload :
  String.length (createSignature cfg payload) = 64%nat.
Proof.
  unfold createSignature, Crypto.createHmac_sha256_hex, Crypto.hmac_sha256.
  rewrite hex_length, sha256_length. reflexivity.
Qed.

(** X10. Whatever the secret and the payload, createSignature returns a
    string of exactly 64 lower-case hexadecimal digits; being non-empty,
    it counts as a supplied signature when it is sent to verifyPayment. *)
Theorem signature_shape cfg payload :
  String.length (createSignature cfg payload) = 64%nat /\
  Observe.lower_hex (createSignature cfg payload) = true /\
  given (Some (createSignature cfg payload)) = true.
Proof.
  split; [apply createSignature_length|]. split.
  - unfold createSignature, Crypto.createHmac_sha256_hex, Crypto.hmac_sha256.
    apply hex_lower, sha256_range.
  - simpl. apply negb_true_iff, String.eqb_neq. intros H.
    apply (f_equal String.length) in H.
    rewrite createSignature_length in H. discriminate.
Qed.

(** X11. A verification that names a stored intent, reports a non-empty
    status and carries a non-empty signature whose length is not 64 is
    refused with the signature-mismatch error, whatever the status of the
    intent; the state is unchanged and nothing is written. *)
Theorem malformed_signature_is_refused cfg now req st tid t supplied :
  q_tid req = Some tid ->
  tid <> "" ->
  given (q_status req) = true ->
  transactions st !! tid = Some t ->
  q_signature req = Some supplied ->
  supplied <> "" ->
  String.length supplied <> 64%nat ->
  verifyPayment cfg now req st = (Fail SignatureMismatch, st, []).
Proof.
  intros Htid Hne Hgs Hin Hq Hs Hlen. unfold verifyPayment.
  rewrite Htid, Hgs, Hq. simpl.
  apply String.eqb_neq in Hne. rewrite Hne. simpl. rewrite Hin.
  apply String.eqb_neq in Hs. rewrite Hs. simpl.
  assert (String.eqb supplied (createSignature cfg (payload t)) = false) as ->.
  { apply String.eqb_neq. intros ->. apply Hlen, createSignature_length. }
  reflexivity.
Qed.

Lemma malformed_signature_is_refused_witness :
  verifyPayment Sample.cfg 1730000100000 (Sample.report "success" (Some "abc"))
    Sample.created
  = (Fail SignatureMismatch, Sample.created, []).
Proof.
  exact (malformed_signature_is_refused Sample.cfg 1730000100000
           (Sample.report "success" (Some "abc")) Sample.created Sample.the_tid
           Sample.the_intent "abc" eq_refl ltac:(discriminate) eq_refl
           sample_created eq_refl ltac:(discriminate) ltac:(discriminate)).
Defined.

(** *** The characters of a deep link *)

Lemma chars_append (a b : string) :
  Js.chars (a +:+ b) = Js.chars a ++ Js.chars b.
Proof.
  unfold Js.chars. induction a as [|x a IH]; [reflexivity|].
  change (x :: list_ascii_of_string (a +:+ b)
          = x :: (list_ascii_of_string a ++ list_ascii_of_string b)).
  now f_equal.
Qed.

Lemma count_char_append c (a b : string) :
  Observe.count_char c (a +:+ b)
  = (Observe.count_char c a + Observe.count_char c b)%nat.
Proof.
  unfold Observe.count_char.
  now rewrite chars_append, List.filter_app, length_app.
Qed.

Lemma byte_of_ascii_range c : 0 <= Bytes.byte_of_ascii c < 256.
Proof.
  unfold Bytes.byte_of_ascii. pose proof (N_ascii_bounded c). lia.
Qed.

Lemma ascii_of_byte_of_ascii c : Bytes.ascii_of_byte (Bytes.byte_of_ascii c) = c.
Proof.
  unfold Bytes.ascii_of_byte, Bytes.byte_of_ascii.
  pose proof (N_ascii_bounded c).
  rewrite Z.mod_small by lia. rewrite N2Z.id. apply ascii_N_embedding.
Qed.

Lemma of_string_range s : Forall (fun b => 0 <= b < 256) (Bytes.of_string s).
Proof.
  unfold Bytes.of_string. apply Forall_map.
  induction (list_ascii_of_string s); constructor; auto using byte_of_ascii_range.
Qed.

Lemma byte_of_ascii_of_byte b :
  0 <= b < 256 -> Bytes.byte_of_ascii (Bytes.ascii_of_byte b) = b.
Proof.
  intros Hb. unfold Bytes.ascii_of_byte, Bytes.byte_of_ascii.
  rewrite Z.mod_small by lia.
  rewrite N_ascii_embedding by lia. lia.
Qed.

Lemma hex_digit_not_separator u d c :
  Observe.separator c -> 0 <= d < 16 -> Ascii.eqb c (Bytes.hex_digit u d) = false.
Proof.
  intros Hc Hd. pose proof (nibble_cases d Hd) as H.
  destruct Hc as [-> | [-> | [-> | ->]]]; destruct u;
    repeat (destruct H as [-> | H]; [reflexivity|]); subst; reflexivity.
Qed.

Lemma percent_no_separator c b :
  Observe.separator c -> 0 <= b < 256 ->
  List.filter (Ascii.eqb c) (Js.percent b) = [].
Proof.
  intros Hc Hb. unfold Js.percent, Bytes.hex_byte.
  cbn [List.filter].
  assert (Ascii.eqb c "%" = false) as ->
    by (destruct Hc as [-> | [-> | [-> | ->]]]; reflexivity).
  rewrite !hex_digit_not_separator; [reflexivity | assumption | | assumption |].
  - apply low_nibble_range.
  - now apply high_nibble_range.
Qed.

Lemma kept_byte_no_separator (keep : Z -> bool) c b :
  Observe.separator c -> 0 <= b < 256 -> keep b = true ->
  keep (Bytes.byte_of_ascii c) = false ->
  Ascii.eqb c (Bytes.ascii_of_byte b) = false.
Proof.
  intros Hc Hb Hk Hn. apply Ascii.eqb_neq. intros ->.
  rewrite byte_of_ascii_of_byte in Hn by assumption. congruence.
Qed.

Lemma form_urlencode_no_separator c s :
  Observe.separator c -> Observe.count_char c (Js.form_urlencode s) = 0%nat.
Proof.
  intros Hc. unfold Observe.count_char, Js.form_urlencode, Js.chars, Js.str_of_chars.
  rewrite list_ascii_of_string_of_list_ascii.
  induction (of_string_range s) as [|b l Hb Hl IH]; [reflexivity|].
  cbn [flat_map]. rewrite List.filter_app, length_app, IH, Nat.add_0_r.
  unfold Js.form_byte.
  destruct (b =? 32).
  { destruct Hc as [-> | [-> | [-> | ->]]]; reflexivity. }
  destruct (Js.form_safe b) eqn:Hs.
  - cbn [List.filter].
    rewrite (kept_byte_no_separator Js.form_safe c b Hc Hb Hs); [reflexivity|].
    destruct Hc as [-> | [-> | [-> | ->]]]; reflexivity.
  - now rewrite percent_no_separator.
Qed.

Lemma encodeURIComponent_no_separator c s :
  Observe.separator c -> Observe.count_char c (Js.encodeURIComponent s) = 0%nat.
Proof.
  intros Hc.
  unfold Observe.count_char, Js.encodeURIComponent, Js.chars, Js.str_of_chars.
  rewrite list_ascii_of_string_of_list_ascii.
  induction (of_string_range s) as [|b l Hb Hl IH]; [reflexivity|].
  cbn [flat_map]. rewrite List.filter_app, length_app, IH, Nat.add_0_r.
  destruct (Js.uri_unreserved b) eqn:Hs.
  - cbn [List.filter].
    rewrite (kept_byte_no_separator Js.uri_unreserved c b Hc Hb Hs); [reflexivity|].
    destruct Hc as [-> | [-> | [-> | ->]]]; reflexivity.
  - now rewrite percent_no_separator.
Qed.

Lemma created_link cfg o req st resp :
  reply (createPayment cfg o req st) = Json200 resp ->
  exists s,
    c_payType req = Js.Str s /\
    ((Js.trim (Js.toLowerCase s) = "phonepe" /\
      redirect_url resp
      = "phonepe://native?data=" +:+ Js.encodeURIComponent (r_payload resp)
        +:+ "&id=p2ppayment") \/
     (Js.trim (Js.toLowerCase s) = "paytm" /\
      redirect_url resp
      = "paytmmp://cash_wallet?"
        +:+ Js.URLSearchParams_toString
              (paytm_queryParams (MERCHANT_UPI cfg) (generateNote o)
                 (Js.parseFloat (c_amount req))))).
Proof.
  unfold createPayment, save_new.
  destruct (negb (Js.truthy (c_amount req)) || negb (Js.truthy (c_payType req)));
    [discriminate|].
  destruct (c_payType req) as [| |b|x|payType|l|l]; try discriminate.
  destruct (String.eqb (Js.trim (Js.toLowerCase payType)) "phonepe") eqn:Hph.
  - simpl negb. cbv beta iota zeta.
    destruct (transactions st !! Payment.tid _); cbv iota; [discriminate|].
    intros [= <-]. exists payType. apply String.eqb_eq in Hph.
    split; [reflexivity|]. left. split; [exact Hph | reflexivity].
  - destruct (String.eqb (Js.trim (Js.toLowerCase payType)) "paytm") eqn:Hpt;
      [|discriminate].
    simpl negb. cbv beta iota zeta.
    destruct (transactions st !! Payment.tid _); cbv iota; [discriminate|].
    intros [= <-]. exists payType. apply String.eqb_eq in Hpt.
    split; [reflexivity|]. right. split; [exact Hpt | reflexivity].
Qed.

Create Rewrite HintDb link.
#[local] Hint Rewrite count_char_append : link.
#[local] Hint Rewrite form_urlencode_no_separator encodeURIComponent_no_separator
  using (unfold Observe.separator; auto) : link.

(** X12. The deep link of a successful creation is well delimited,
    whatever the merchant handle, the note, the amount and the payload
    contain: it has exactly one question mark and no hash sign; a PhonePe
    link has exactly one ampersand and two equals signs (the parameters
    data and id), a Paytm link exactly eleven ampersands and twelve equals
    signs (its twelve parameters). *)
Theorem deep_link_separators cfg o req st resp :
  reply (createPayment cfg o req st) = Json200 resp ->
  Observe.count_char "?" (redirect_url resp) = 1%nat /\
  Observe.count_char "#" (redirect_url resp) = 0%nat /\
  exists s,
    c_payType req = Js.Str s /\
    ((Js.trim (Js.toLowerCase s) = "phonepe" /\
      Observe.count_char "&" (redirect_url resp) = 1%nat /\
      Observe.count_char "=" (redirect_url resp) = 2%nat) \/
     (Js.trim (Js.toLowerCase s) = "paytm" /\
      Observe.count_char "&" (redirect_url resp) = 11%nat /\
      Observe.count_char "=" (redirect_url resp) = 12%nat)).
Proof.
  intros Hr.
  destruct (created_link cfg o req st resp Hr) as (s & Hs & [[Hp ->] | [Hp ->]]).
  - split; [autorewrite with link; reflexivity|].
    split; [autorewrite with link; reflexivity|].
    exists s. split; [exact Hs|]. left. split; [exact Hp|].
    split; autorewrite with link; reflexivity.
  - rewrite paytm_link.
    split; [autorewrite with link; reflexivity|].
    split; [autorewrite with link; reflexivity|].
    exists s. split; [exact Hs|]. right. split; [exact Hp|].
    split; autorewrite with link; reflexivity.
Qed.

Lemma deep_link_separators_witness :
  exists resp,
    reply (createPayment Sample.cfg Sample.oracle Sample.paytm_request Sample.start)
    = Json200 resp /\
    Observe.count_char "?" (redirect_url resp) = 1%nat.
Proof.
  destruct sample_paytm_reply as [resp Hr].
  exists resp. split; [exact Hr|].
  exact (proj1 (deep_link_separators _ _ _ _ _ Hr)).
Defined.

(* ===================================================================== *)
(** ** Properties of the order controller *)
(* ===================================================================== *)

(** *** Card numbers *)

Lemma chars_of_chars (l : list ascii) : Js.chars (Js.str_of_chars l) = l.
Proof. apply list_ascii_of_string_of_list_ascii. Qed.

Lemma str_of_chars_app (l1 l2 : list ascii) :
  Js.str_of_chars (l1 ++ l2) = Js.str_of_chars l1 +:+ Js.str_of_chars l2.
Proof.
  unfold Js.str_of_chars. induction l1 as [|x l1 IH]; [reflexivity|].
  change (String x (string_of_list_ascii (l1 ++ l2))
          = String x (string_of_list_ascii l1 +:+ string_of_list_ascii l2)).
  now f_equal.
Qed.

Lemma digits_only_app (a b : string) :
  Orders.digits_only (a +:+ b) = Orders.digits_only a +:+ Orders.digits_only b.
Proof.
  unfold Orders.digits_only.
  now rewrite chars_append, List.filter_app, str_of_chars_app.
Qed.

Lemma filter_filter_same {A} (f : A -> bool) (l : list A) :
  List.filter f (List.filter f l) = List.filter f l.
Proof.
  induction l as [|x l IH]; [reflexivity|]. simpl.
  destruct (f x) eqn:Hx; simpl; [rewrite Hx; now f_equal | exact IH].
Qed.

Lemma digits_only_idempotent (s : string) :
  Orders.digits_only (Orders.digits_only s) = Orders.digits_only s.
Proof.
  unfold Orders.digits_only. now rewrite chars_of_chars, filter_filter_same.
Qed.

Lemma filter_all {A} (f : A -> bool) (l : list A) :
  forallb f (List.filter f l) = true.
Proof.
  induction l as [|x l IH]; [reflexivity|]. simpl.
  destruct (f x) eqn:Hx; simpl; [now rewrite Hx | exact IH].
Qed.

Lemma string_length_chars (s : string) : String.length s = length (Js.chars s).
Proof.
  unfold Js.chars. induction s as [|c s IH]; simpl; [reflexivity | now rewrite IH].
Qed.

(** X13. getCardType ignores formatting: inserting a run of characters
    without a decimal digit (spaces, dashes, letters) anywhere in a card
    number does not change its card type, and the type of a number is the
    type of its digits alone. *)
Theorem card_type_ignores_formatting (a sep b : string) :
  Orders.digits_only sep = "" ->
  Orders.getCardType (a +:+ sep +:+ b) = Orders.getCardType (a +:+ b) /\
  Orders.getCardType (Orders.digits_only (a +:+ sep +:+ b))
  = Orders.getCardType (a +:+ b).
Proof.
  intros Hsep.
  assert (Orders.digits_only (a +:+ sep +:+ b) = Orders.digits_only (a +:+ b)) as H.
  { rewrite !digits_only_app, Hsep. reflexivity. }
  unfold Orders.getCardType. rewrite digits_only_idempotent, H. auto.
Qed.

Lemma card_type_ignores_formatting_witness :
  Orders.getCardType ("4111" +:+ " - " +:+ "1111")
  = Orders.getCardType ("4111" +:+ "1111").
Proof.
  exact (proj1 (card_type_ignores_formatting "4111" " - " "1111" eq_refl)).
Defined.

(** X14. The card type of a number that starts with a decimal digit
    depends on that digit alone, and it is Other exactly when the digit is
    0, 1, 7, 8 or 9. *)
Theorem card_type_by_first_digit (d : ascii) (rest1 rest2 : string) :
  Orders.digit_char d = true ->
  Orders.getCardType (String d rest1) = Orders.getCardType (String d rest2) /\
  (Orders.getCardType (String d rest1) = "Other" <->
   d = "0"%char \/ d = "1"%char \/ d = "7"%char \/ d = "8"%char \/ d = "9"%char).
Proof.
  intros Hd.
  assert (forall rest,
             Orders.digits_only (String d rest)
             = String d (Orders.digits_only rest)) as Hclean.
  { intros rest. unfold Orders.digits_only, Js.chars. simpl. now rewrite Hd. }
  unfold Orders.getCardType. rewrite !Hclean.
  unfold Orders.startsWith, Js.chars. simpl. rewrite !andb_true_r.
  split; [reflexivity|].
  unfold Orders.digit_char, Js.is_digit in Hd.
  apply andb_true_iff in Hd as [H1 H2].
  apply Z.leb_le in H1, H2.
  pose proof (ascii_of_byte_of_ascii d) as Hrt.
  assert (Bytes.byte_of_ascii d = 48 \/ Bytes.byte_of_ascii d = 49 \/
          Bytes.byte_of_ascii d = 50 \/ Bytes.byte_of_ascii d = 51 \/
          Bytes.byte_of_ascii d = 52 \/ Bytes.byte_of_ascii d = 53 \/
          Bytes.byte_of_ascii d = 54 \/ Bytes.byte_of_ascii d = 55 \/
          Bytes.byte_of_ascii d = 56 \/ Bytes.byte_of_ascii d = 57) as Hc by lia.
  repeat (destruct Hc as [Hc | Hc];
          [rewrite Hc in Hrt; subst d; vm_compute;
           split; [intros; first [discriminate | tauto]
                  | intros [H|[H|[H|[H|H]]]]; first [discriminate | reflexivity]]
          |]).
  rewrite Hc in Hrt; subst d; vm_compute.
  split; [intros; first [discriminate | tauto]
         | intros [H|[H|[H|[H|H]]]]; first [discriminate | reflexivity]].
Qed.

Lemma card_type_by_first_digit_witness :
  Orders.getCardType "5105105105105100" = Orders.getCardType "5".
Proof.
  exact (proj1 (card_type_by_first_digit "5" "105105105105100" "" eq_refl)).
Defined.

(** X15. The card fields createOrder stores: the card number holds
    decimal digits only; the last-four field holds the last four of them,
    or all of them when there are fewer than four, so it is a suffix of
    the stored number; and the stored card type is the card type of the
    number as it was entered. *)
Theorem card_fields (number : string) :
  let f := Orders.processCardNumber number in
  forallb Orders.digit_char (Js.chars (Orders.cardNumber f)) = true /\
  forallb Orders.digit_char (Js.chars (Orders.cardNumberLast4 f)) = true /\
  String.length (Orders.cardNumberLast4 f)
  = Nat.min 4 (String.length (Orders.cardNumber f)) /\
  (exists front, Orders.cardNumber f = front +:+ Orders.cardNumberLast4 f) /\
  Orders.cardType f = Orders.getCardType number.
Proof.
  unfold Orders.processCardNumber. cbn [Orders.cardNumber Orders.cardNumberLast4
                                         Orders.cardType].
  set (clean := Orders.digits_only number).
  assert (forallb Orders.digit_char (Js.chars clean) = true) as Hall.
  { subst clean. unfold Orders.digits_only. rewrite chars_of_chars.
    apply filter_all. }
  split; [exact Hall|].
  unfold Orders.slice_last. rewrite !chars_of_chars.
  set (l := Js.chars clean) in *.
  split; [|split; [|split]].
  - rewrite <- (firstn_skipn (length l - 4) l) in Hall.
    rewrite forallb_app in Hall. now apply andb_true_iff in Hall.
  - rewrite string_length_chars, chars_of_chars, length_skipn.
    rewrite (string_length_chars clean). fold l. lia.
  - exists (Js.str_of_chars (firstn (length l - 4) l)).
    rewrite <- str_of_chars_app, firstn_skipn.
    subst l. unfold Js.str_of_chars, Js.chars.
    now rewrite string_of_list_ascii_of_string.
  - subst clean. unfold Orders.getCardType.
    now rewrite digits_only_idempotent.
Qed.

(** *** One order *)

Lemma object_id_is_an_id id :
  Orders.is_object_id id = true -> Orders.no_id id = false.
Proof.
  unfold Orders.is_object_id, Orders.no_id. intros H.
  apply andb_true_iff in H as [Hlen _]. apply Nat.eqb_eq in Hlen.
  destruct (String.eqb id "") eqn:H1;
    [apply String.eqb_eq in H1; subst; discriminate|].
  destruct (String.eqb id "undefined") eqn:H2;
    [apply String.eqb_eq in H2; subst; discriminate|].
  destruct (String.eqb id "null") eqn:H3;
    [apply String.eqb_eq in H3; subst; discriminate|].
  reflexivity.
Qed.

Lemma delete_effect id st :
  (exists code text,
      Orders.getOrderById id st = Orders.Refused code text /\
      Orders.deleteOrder id st = (Orders.Refused code text, st)) \/
  (exists order,
      Orders.getOrderById id st = Orders.Ok200 order /\
      Orders.is_object_id id = true /\
      orders st !! Orders.order_key id = Some order /\
      Orders.deleteOrder id st
      = (Orders.Ok200 {| Orders.d_orderId := id;
                         Orders.d_orderNumber := Orders.orderNumber order |},
         {| transactions := transactions st;
            orders := delete (Orders.order_key id) (orders st) |})).
Proof.
  unfold Orders.getOrderById, Orders.deleteOrder.
  destruct (Orders.no_id id) eqn:Hno; [left; eauto|].
  destruct (Orders.is_object_id id) eqn:Hid; simpl; [|left; eauto].
  destruct (orders st !! Orders.order_key id) as [o|] eqn:Ho; [|left; eauto].
  right. exists o. auto.
Qed.

Lemma sample_order :
  Orders.getOrderById Demo.order_id Demo.shop = Orders.Ok200 Sample.order.
Proof. vm_compute. reflexivity. Qed.

(** X16. The answers of getOrderById: it replies 200 with an order
    exactly when the id is 24 hexadecimal digits and that order is stored
    under it; every refusal is 404 for a well-formed id without an order,
    and 400 for an id that is not 24 hexadecimal digits (among them the
    empty id and the texts undefined and null). *)
Theorem order_lookup_answers id st :
  (forall order,
      Orders.getOrderById id st = Orders.Ok200 order <->
      Orders.is_object_id id = true /\
      orders st !! Orders.order_key id = Some order) /\
  (forall code text,
      Orders.getOrderById id st = Orders.Refused code text ->
      (code = 404 /\ Orders.is_object_id id = true /\
       orders st !! Orders.order_key id = None) \/
      (code = 400 /\ Orders.is_object_id id = false)).
Proof.
  unfold Orders.getOrderById.
  destruct (Orders.is_object_id id) eqn:Hid.
  - rewrite (object_id_is_an_id id Hid). simpl.
    destruct (orders st !! Orders.order_key id) as [o|]; split.
    + intros order. split; [intros [= ->]; auto | intros [_ [= ->]]; reflexivity].
    + discriminate.
    + intros order. split; [discriminate | intros [_ ?]; discriminate].
    + intros code text [= <- <-]. left. auto.
  - destruct (Orders.no_id id); simpl; split.
    + intros order. split; [discriminate | intros [? _]; discriminate].
    + intros code text [= <- <-]. right. auto.
    + intros order. split; [discriminate | intros [? _]; discriminate].
    + intros code text [= <- <-]. right. auto.
Qed.

Lemma order_lookup_answers_witness :
  Orders.is_object_id Demo.order_id = true /\
  orders Demo.shop !! Orders.order_key Demo.order_id = Some Sample.order.
Proof.
  exact (proj1 (proj1 (order_lookup_answers Demo.order_id Demo.shop) Sample.order)
           sample_order).
Defined.

(** X17. deleteOrder refuses exactly as getOrderById does, and a refused
    deletion changes nothing. A successful deletion echoes the id and the
    order number of the order that getOrderById returned before it;
    afterwards getOrderById answers 404 for the id, a second deletion
    answers 404 and changes nothing, and every other order and every
    transaction is as before. *)
Theorem delete_order_effect id st :
  (forall code text,
      (Orders.deleteOrder id st).1 = Orders.Refused code text ->
      (Orders.deleteOrder id st).2 = st /\
      Orders.getOrderById id st = Orders.Refused code text) /\
  (forall d,
      (Orders.deleteOrder id st).1 = Orders.Ok200 d ->
      let st' := (Orders.deleteOrder id st).2 in
      Orders.d_orderId d = id /\
      (exists order,
          Orders.getOrderById id st = Orders.Ok200 order /\
          Orders.d_orderNumber d = Orders.orderNumber order) /\
      Orders.getOrderById id st' = Orders.Refused 404 "Order not found" /\
      Orders.deleteOrder id st' = (Orders.Refused 404 "Order not found", st') /\
      (forall key, key <> Orders.order_key id ->
                   orders st' !! key = orders st !! key) /\
      transactions st' = transactions st).
Proof.
  destruct (delete_effect id st) as
    [(code & text & Hg & Hd) | (order & Hg & Hid & Ho & Hd)]; rewrite Hd; simpl.
  - split; [|discriminate]. intros c t [= <- <-]. auto.
  - split; [discriminate|]. intros d [= <-]. simpl.
    split; [reflexivity|]. split; [eauto|].
    assert (Orders.getOrderById id
              {| transactions := transactions st;
                 orders := delete (Orders.order_key id) (orders st) |}
            = Orders.Refused 404 "Order not found") as Hgone.
    { unfold Orders.getOrderById. rewrite (object_id_is_an_id id Hid), Hid. simpl.
      now rewrite lookup_delete_eq. }
    split; [exact Hgone|]. split.
    + unfold Orders.deleteOrder. rewrite (object_id_is_an_id id Hid), Hid. simpl.
      now rewrite lookup_delete_eq.
    + split; [|reflexivity]. intros key Hk. now apply lookup_delete_ne.
Qed.

Lemma delete_order_effect_witness :
  Orders.getOrderById Demo.order_id
    (Orders.deleteOrder Demo.order_id Demo.shop).2
  = Orders.Refused 404 "Order not found".
Proof.
  destruct (proj2 (delete_order_effect Demo.order_id Demo.shop)
              {| Orders.d_orderId := Demo.order_id;
                 Orders.d_orderNumber := Js.Str "ORD-1" |}
              ltac:(vm_compute; reflexivity)) as (_ & _ & Hgone & _).
  exact Hgone.
Defined.

(** X18. updateOrderStatus: a refused call changes nothing, and a status
    that is not one of the six valid strings (among them every value that
    is not a string) is refused with 400 before the store is consulted. A
    successful call was given one of the six valid statuses and an id the
    store casts to the key of a stored order; it echoes that key, the
    order number and the status, sets the status of that order and leaves
    its payment status and its other fields, every other order and every
    transaction as they were. *)
Theorem update_order_status_effect cast id status st :
  (forall code text,
      (Orders.updateOrderStatus cast id status st).1 = Orders.Refused code text ->
      (Orders.updateOrderStatus cast id status st).2 = st) /\
  (Orders.includes_status status = false ->
   Orders.updateOrderStatus cast id status st
   = (Orders.Refused 400 "Invalid order status", st)) /\
  (forall u,
      (Orders.updateOrderStatus cast id status st).1 = Orders.Ok200 u ->
      let st' := (Orders.updateOrderStatus cast id status st).2 in
      exists key order,
        cast id = Some key /\
        orders st !! key = Some order /\
        status = Js.Str (Orders.u_status u) /\
        In (Orders.u_status u) Orders.validStatuses /\
        Orders.u_orderId u = key /\
        Orders.u_orderNumber u = Orders.orderNumber order /\
        orders st' !! key
        = Some {| paymentStatus := paymentStatus order;
                  orderStatus := Orders.u_status u;
                  orderDetails := orderDetails order |} /\
        (forall key', key' <> key -> orders st' !! key' = orders st !! key') /\
        transactions st' = transactions st).
Proof.
  unfold Orders.updateOrderStatus.
  destruct status as [| |b|x|s|l|l];
    try (split; [intros c t [= <- <-]; reflexivity
                |split; [reflexivity | discriminate]]).
  destruct (Orders.includes_status (Js.Str s)) eqn:Hv; simpl negb; cbv iota.
  2: { split; [intros c t [= <- <-]; reflexivity
              |split; [reflexivity | discriminate]]. }
  destruct (cast id) as [key|].
  2: { split; [intros c t [= <- <-]; reflexivity
              |split; [discriminate | discriminate]]. }
  destruct (orders st !! key) as [order|] eqn:Ho.
  2: { split; [intros c t [= <- <-]; reflexivity
              |split; [discriminate | discriminate]]. }
  split; [discriminate|]. split; [discriminate|].
  intros u [= <-]. simpl. exists key, order.
  split; [reflexivity|]. split; [exact Ho|]. split; [reflexivity|].
  split.
  { unfold Orders.includes_status in Hv.
    apply existsb_exists in Hv as (x & Hx & He).
    apply String.eqb_eq in He. now subst. }
  split; [reflexivity|]. split; [reflexivity|].
  split; [apply lookup_insert_eq|].
  split; [|reflexivity]. intros key' Hk. apply lookup_insert_ne. congruence.
Qed.

Lemma update_order_status_effect_witness :
  Orders.updateOrderStatus Demo.castObjectId Demo.order_id (Js.Str "paid")
    Demo.shop
  = (Orders.Refused 400 "Invalid order status", Demo.shop) /\
  exists key order,
    Demo.castObjectId Demo.order_id = Some key /\
    orders Demo.shop !! key = Some order.
Proof.
  split.
  - exact (proj1 (proj2 (update_order_status_effect Demo.castObjectId
                           Demo.order_id (Js.Str "paid") Demo.shop)) eq_refl).
  - destruct (proj2 (proj2 (update_order_status_effect Demo.castObjectId
                              Demo.order_id (Js.Str "shipped") Demo.shop))
                {| Orders.u_orderId := Orders.order_key Demo.order_id;
                   Orders.u_orderNumber := Js.Str "ORD-1";
                   Orders.u_status := "shipped" |}
                ltac:(vm_compute; reflexivity))
      as (key & order & Hc & Ho & _).
    exists key, order. split; [exact Hc | exact Ho].
Defined.

(** X19. An update is read back: when the id is 24 hexadecimal digits and
    the store casts it to the key getOrderById uses, a successful
    updateOrderStatus was made on the order getOrderById returned before
    it, and getOrderById afterwards returns that order with the new
    status, its payment status and other fields unchanged. *)
Theorem updated_order_reads_back cast id s st u :
  Orders.is_object_id id = true ->
  cast id = Some (Orders.order_key id) ->
  (Orders.updateOrderStatus cast id (Js.Str s) st).1 = Orders.Ok200 u ->
  exists order,
    Orders.getOrderById id st = Orders.Ok200 order /\
    Orders.getOrderById id (Orders.updateOrderStatus cast id (Js.Str s) st).2
    = Orders.Ok200 {| paymentStatus := paymentStatus order;
                      orderStatus := s;
                      orderDetails := orderDetails order |}.
Proof.
  intros Hid Hcast. unfold Orders.updateOrderStatus, Orders.getOrderById.
  rewrite Hcast, (object_id_is_an_id id Hid), Hid. simpl.
  destruct (negb _); [discriminate|].
  destruct (orders st !! Orders.order_key id) as [order|]; [|discriminate].
  intros _. exists order. split; [reflexivity|]. simpl.
  now rewrite lookup_insert_eq.
Qed.

Lemma updated_order_reads_back_witness :
  exists order,
    Orders.getOrderById Demo.order_id Demo.shop = Orders.Ok200 order /\
    Orders.getOrderById Demo.order_id
      (Orders.updateOrderStatus Demo.castObjectId Demo.order_id
         (Js.Str "shipped") Demo.shop).2
    = Orders.Ok200 {| paymentStatus := paymentStatus order;
                      orderStatus := "shipped";
                      orderDetails := orderDetails order |}.
Proof.
  exact (updated_order_reads_back Demo.castObjectId Demo.order_id "shipped"
           Demo.shop
           {| Orders.u_orderId := Orders.order_key Demo.order_id;
              Orders.u_orderNumber := Js.Str "ORD-1";
              Orders.u_status := "shipped" |}
           ltac:(vm_compute; reflexivity) ltac:(vm_compute; reflexivity)
           ltac:(vm_compute; reflexivity)).
Defined.

(** *** Orders under verification *)

(** X20. What verifyPayment can do to an order: an order that is stored
    before and after a verification either is unchanged or has become
    paid and confirmed, or failed and cancelled; its other fields are
    kept, and when its status was one of the statuses updateOrderStatus
    accepts, it still is. *)
Theorem verification_keeps_order_statuses_valid cfg now req st oid order order' :
  orders st !! oid = Some order ->
  orders (after (verifyPayment cfg now req st)) !! oid = Some order' ->
  orderDetails order' = orderDetails order /\
  (order' = order \/
   (paymentStatus order' = "paid" /\ orderStatus order' = "confirmed") \/
   (paymentStatus order' = "failed" /\ orderStatus order' = "cancelled")) /\
  (Orders.includes_status (Js.Str (orderStatus order)) = true ->
   Orders.includes_status (Js.Str (orderStatus order')) = true).
Proof.
  intros Ho Ho'.
  assert (order' = order \/ exists reported, order' = reconcile reported order) as H.
  { revert Ho'. unfold verifyPayment.
    destruct (negb _ || negb _); [simpl; left; congruence|].
    destruct (transactions st !! _) as [t|]; [|simpl; left; congruence].
    verify_cases Hsig Hst; [simpl; left; congruence| |simpl; left; congruence].
    destruct (linked_order _) as [oid'|]; [|simpl; left; congruence].
    destruct (order_cast cfg oid') as [key|]; [|simpl; left; congruence].
    simpl. destruct (orders st !! key) as [o|] eqn:Ho2; [|simpl; left; congruence].
    simpl. destruct (decide (key = oid)) as [->|Hd].
    - rewrite lookup_insert_eq. intros [= <-]. right.
      assert (o = order) as -> by congruence. eauto.
    - rewrite lookup_insert_ne by assumption. left. congruence. }
  destruct H as [-> | (reported & ->)]; [auto|].
  unfold reconcile.
  destruct (String.eqb reported "success"); [simpl; auto 6|].
  destruct (String.eqb reported "failed"); simpl; auto 6.
Qed.

Lemma verification_keeps_order_statuses_valid_witness :
  orders Sample.paid !! Sample.order_id
  = Some (set_order "paid" "confirmed" Sample.order) /\
  Orders.includes_status (Js.Str "confirmed") = true.
Proof.
  assert (orders Sample.paid !! Sample.order_id
          = Some (set_order "paid" "confirmed" Sample.order)) as Hafter
    by (vm_compute; reflexivity).
  split; [exact Hafter|].
  exact (proj2 (proj2 (verification_keeps_order_statuses_valid Sample.cfg
                         1730000100000 (Sample.report "success" None)
                         Sample.created Sample.order_id Sample.order
                         (set_order "paid" "confirmed" Sample.order)
                         ltac:(vm_compute; reflexivity) Hafter))
           eq_refl).
Defined.
